(** * Ritease PDF annotation editor: the annotation compositing engine

    A shallow embedding of [src/features/third/index.tsx] (the [PDFEditor]
    component): the annotation data model, the colour codec [hexToRgb], the
    compositor [applyAnnotationToPage], the two render passes
    [updatePdfPreview] and [downloadPdf], and the handlers that edit the
    committed annotation list.

    Conventions.
    - JavaScript strings are [string]; [undefined]/[null] is [None].
    - Coordinates (positions, pointer positions, drag offsets) are typed
      by the user or come from the pointer and enter sums and differences:
      they are IEEE doubles, [float], with the arithmetic of doubles.
    - Number literals of the source that enter no arithmetic (sizes,
      thickness, the fixed size of a signature) and colour channels are
      [Z]; literal fractions (opacities, unit colour channels) are exact
      rationals [Q].
    - Reading the clock is an input: a pass takes the time [now] at which
      it loads the document, and [saveAnnotation] the time it mints an
      identifier at.
    - pdf-lib and the browser are not part of the repository: what the
      component needs from them is the interface [PdfLib] below. *)

From Stdlib Require Import ZArith QArith List String Ascii Bool Lia.
From Stdlib Require Import DecimalString.
From Corelib Require Import PrimFloat.
Import ListNotations.

Local Open Scope string_scope.
Local Open Scope Z_scope.

(** ** JavaScript truthiness *)

Module Js.

(** [!!s] for a string [s]: only the empty string is falsy. *)
Definition truthy (s : string) : bool :=
  match s with
  | EmptyString => false
  | String _ _ => true
  end.

(** [!!v] for [v : string | null | undefined]. *)
Definition truthyOpt (v : option string) : bool :=
  match v with
  | None => false
  | Some s => truthy s
  end.

(** [v || undefined] for [v : string | null]. *)
Definition orUndefined (v : option string) : option string :=
  if truthyOpt v then v else None.

(** [s.split(',')]: the pieces of [s] between commas, never empty. *)
Fixpoint split_comma (s : string) : list string :=
  match s with
  | EmptyString => [EmptyString]
  | String c rest =>
      if Ascii.eqb c ","%char then EmptyString :: split_comma rest
      else match split_comma rest with
           | [] => [String c EmptyString]
           | piece :: pieces => String c piece :: pieces
           end
  end.

(** Argument conversion of a Web API taking a DOMString: [undefined]
    becomes the text "undefined". *)
Definition toDOMString (v : option string) : string :=
  match v with
  | None => "undefined"
  | Some s => s
  end.

End Js.

(** ** Colour codec: [hexToRgb] *)

Module Rgb.
Record t := mk { r : Z; g : Z; b : Z }.
End Rgb.

(** The character class [[a-f\d]] under the [i] flag. *)
Definition isHexDigit (c : ascii) : bool :=
  let n := N.of_nat (nat_of_ascii c) in
  ((48 <=? n) && (n <=? 57) || (97 <=? n) && (n <=? 102)
   || (65 <=? n) && (n <=? 70))%N.

(** One group [([a-f\d]{2})] at the head of [s]: the captured text and the
    rest of the input. *)
Definition group2 (s : string) : option (string * string) :=
  match s with
  | String c1 (String c2 rest) =>
      if isHexDigit c1 && isHexDigit c2
      then Some (String c1 (String c2 EmptyString), rest)
      else None
  | _ => None
  end.

(** [([a-f\d]{2})([a-f\d]{2})([a-f\d]{2})$]: three groups, then the end of
    the input. *)
Definition groups (s : string) : option (string * string * string) :=
  match group2 s with
  | Some (g1, s1) =>
      match group2 s1 with
      | Some (g2, s2) =>
          match group2 s2 with
          | Some (g3, EmptyString) => Some (g1, g2, g3)
          | _ => None
          end
      | None => None
      end
  | None => None
  end.

(** [/^#?([a-f\d]{2})([a-f\d]{2})([a-f\d]{2})$/i.exec(hex)]: the greedy
    [#?] first consumes a leading '#', and gives it back when the rest does
    not match. *)
Definition exec (hex : string) : option (string * string * string) :=
  match hex with
  | String c rest =>
      if Ascii.eqb c "#"%char
      then match groups rest with
           | Some m => Some m
           | None => groups hex
           end
      else groups hex
  | EmptyString => groups hex
  end.

(** Value of one digit in radix 16, [None] for any other character. *)
Definition digit16 (c : ascii) : option Z :=
  let n := Z.of_nat (nat_of_ascii c) in
  if (48 <=? n) && (n <=? 57) then Some (n - 48)
  else if (97 <=? n) && (n <=? 102) then Some (n - 87)
  else if (65 <=? n) && (n <=? 70) then Some (n - 55)
  else None.

(** [parseInt(s, 16)] on the digits at the head of [s], scanned left to
    right with accumulator [acc].  The component only calls it on a captured
    group, which is two hex digits: sign, white space, the "0x" prefix and
    the NaN of a digit-free input do not arise there. *)
Fixpoint parseInt16_from (acc : Z) (s : string) : Z :=
  match s with
  | EmptyString => acc
  | String c rest =>
      match digit16 c with
      | Some d => parseInt16_from (16 * acc + d) rest
      | None => acc
      end
  end.

Definition parseInt16 (s : string) : Z := parseInt16_from 0 s.

Definition hexToRgb (hex : string) : Rgb.t :=
  match exec hex with
  | Some (g1, g2, g3) =>
      {| Rgb.r := parseInt16 g1; Rgb.g := parseInt16 g2; Rgb.b := parseInt16 g3 |}
  | None => {| Rgb.r := 0; Rgb.g := 0; Rgb.b := 0 |}
  end.

(** *** The accepted shape, as the specification words it *)

(** The 22 hexadecimal digit characters, either case. *)
Definition hexAlphabet : list ascii :=
  list_ascii_of_string "0123456789abcdefABCDEF".

(** Value of a hexadecimal digit, read off its place in "0123456789abcdef"
    after folding the case. *)
Definition hexValue (c : ascii) : Z :=
  let fix place (k : Z) (l : list ascii) : Z :=
    match l with
    | [] => 0
    | d :: l' => if Ascii.eqb c d then k else place (k + 1) l'
    end in
  let v := place 0 hexAlphabet in
  if 16 <=? v then v - 6 else v.

(** Exactly six hexadecimal digits. *)
Definition sixHexDigits (ds : string) : Prop :=
  String.length ds = 6%nat /\
  Forall (fun c => In c hexAlphabet) (list_ascii_of_string ds).

(** An optional leading '#' followed by exactly six hexadecimal digits. *)
Definition colorShape (hex : string) : Prop :=
  exists ds, sixHexDigits ds /\ (hex = ds \/ hex = String "#" ds).

(** The channels that six digits spell, two digits per channel. *)
Definition decodeDigits (ds : string) : Rgb.t :=
  match list_ascii_of_string ds with
  | [c1; c2; c3; c4; c5; c6] =>
      {| Rgb.r := 16 * hexValue c1 + hexValue c2;
         Rgb.g := 16 * hexValue c3 + hexValue c4;
         Rgb.b := 16 * hexValue c5 + hexValue c6 |}
  | _ => {| Rgb.r := 0; Rgb.g := 0; Rgb.b := 0 |}
  end.

Definition black : Rgb.t := {| Rgb.r := 0; Rgb.g := 0; Rgb.b := 0 |}.

Definition channelsInRange (c : Rgb.t) : Prop :=
  0 <= Rgb.r c <= 255 /\ 0 <= Rgb.g c <= 255 /\ 0 <= Rgb.b c <= 255.

(** ** What the component uses of pdf-lib and of the browser *)

Definition bytes := list Byte.byte.

Inductive StandardFonts : Set := Helvetica.

(** [ReturnType<typeof rgb>]: channels scaled to the unit interval. *)
Module Color.
Record t := rgb { red : Q; green : Q; blue : Q }.
End Color.

Module PDFFont.
Record t : Set := mk { name : StandardFonts }.
End PDFFont.

(** The image object [embedPng] returns: it stands for the bytes embedded. *)
Module PDFImage.
Record t := mk { png : bytes }.
End PDFImage.

Module Position.
Record t := mk { x : float; y : float; width : float; height : float }.
End Position.

Module TextOptions.
Record t :=
  mk { x : float; y : float; size : Z; font : PDFFont.t; color : Color.t }.
End TextOptions.

Module RectangleOptions.
Record t :=
  mk { x : float; y : float; width : float; height : float;
       color : Color.t; opacity : Q }.
End RectangleOptions.

Module Point.
Record t := mk { x : float; y : float }.
End Point.

Module LineOptions.
Record t :=
  mk { start : Point.t; end_ : Point.t; thickness : Z; color : Color.t;
       opacity : Q }.
End LineOptions.

Module ImageOptions.
Record t := mk { x : float; y : float; width : Z; height : Z; opacity : Q }.
End ImageOptions.

(** A pdf-lib call that changes the document; [page] is the index of the
    page it draws on. *)
Inductive Op :=
| EmbedFont (f : StandardFonts)
| DrawText (page : nat) (text : string) (o : TextOptions.t)
| DrawRectangle (page : nat) (o : RectangleOptions.t)
| DrawLine (page : nat) (o : LineOptions.t)
| EmbedPng (b : bytes)
| DrawImage (page : nat) (image : PDFImage.t) (o : ImageOptions.t).

(** The library side.  A loaded document is what [parse] read from the
    source bytes, the time it was loaded at ([PDFDocument.load] called with
    no options stamps the document with the current date), and the
    changing calls made on it since, oldest first; a call that throws
    leaves no mark. *)
Class PdfLib := {
  (** what [PDFDocument.load] builds from well-formed bytes *)
  Parsed : Type;
  (** [PDFDocument.load(bytes)]; [None] when it throws *)
  parse : bytes -> option Parsed;
  (** [pdfDoc.getPages().length] *)
  pageCount : Parsed -> nat;
  (** whether [page.drawText] can encode the text with the font; it throws
      if not *)
  encodes : StandardFonts -> string -> bool;
  (** the browser's [atob]; [None] when it throws *)
  atob : string -> option string;
  (** whether [pdfDoc.embedPng(bytes)] accepts the bytes; it throws if not *)
  isPng : bytes -> bool;
  (** [pdfDoc.save()] of a document parsed from a source, loaded at a
      time, that has received the calls *)
  serialize : Parsed -> Z -> list Op -> bytes
}.

Inductive Error :=
| DecodeError            (* PDFDocument.load *)
| TypeError              (* a property read on undefined *)
| EncodingError          (* page.drawText *)
| InvalidCharacterError  (* atob *)
| EmbedError.            (* embedPng *)

Module File.
Record t := mk { arrayBuffer : bytes }.
End File.

(** What a URL made by [URL.createObjectURL] points to.  The URL string
    itself, new at every call, is not modelled: two values of this type are
    equal when they point to equal contents, not when they are one URL. *)
Inductive ObjectURL :=
| UrlOfFile (file : File.t)
| UrlOfBlob (parts : bytes) (type : string).

(** The bytes that a URL serves. *)
Definition bytesOf (url : ObjectURL) : bytes :=
  match url with
  | UrlOfFile file => File.arrayBuffer file
  | UrlOfBlob parts _ => parts
  end.

(** What a pass does besides changing its document. *)
Inductive Effect :=
| ConsoleError (message : string) (error : Error)
| SetPdfUrl (url : ObjectURL)
| AnchorClick (href : ObjectURL) (download : string)
| RevokeObjectURL (url : ObjectURL).

(** ** A state and exception monad for one render pass

    The heap holds what a pass mutates: the calls received by the document
    it loaded, oldest first, and the effects it had on the outside, oldest
    first.  An exception leaves the heap as it was when thrown. *)

Inductive Result (A : Type) :=
| Ok (a : A)
| Throw (e : Error).
Arguments Ok {A} a.
Arguments Throw {A} e.

Module Heap.
Record t := mk { calls : list Op; effects : list Effect }.
Definition empty : t := {| calls := []; effects := [] |}.
(** [h] followed by what happened in [k]. *)
Definition app (h k : t) : t :=
  {| calls := calls h ++ calls k; effects := effects h ++ effects k |}.
End Heap.

Definition M (A : Type) : Type := Heap.t -> Result A * Heap.t.

Definition ret {A} (a : A) : M A := fun h => (Ok a, h).

Definition bind {A B} (m : M A) (k : A -> M B) : M B :=
  fun h =>
    match m h with
    | (Ok a, h') => k a h'
    | (Throw e, h') => (Throw e, h')
    end.

Definition throw {A} (e : Error) : M A := fun h => (Throw e, h).

(** [try { body } catch (error) { handler }] *)
Definition tryCatch {A} (body : M A) (handler : Error -> M A) : M A :=
  fun h =>
    match body h with
    | (Ok a, h') => (Ok a, h')
    | (Throw e, h') => handler e h'
    end.

(** The document receives a changing call. *)
Definition call (op : Op) : M unit :=
  fun h =>
    (Ok tt, {| Heap.calls := Heap.calls h ++ [op];
               Heap.effects := Heap.effects h |}).

(** The pass has an effect on the outside. *)
Definition effect (e : Effect) : M unit :=
  fun h =>
    (Ok tt, {| Heap.calls := Heap.calls h;
               Heap.effects := Heap.effects h ++ [e] |}).

Notation "x <- m ;; k" := (bind m (fun x => k))
  (at level 61, m at next level, right associativity).
Notation "m ;;; k" := (bind m (fun _ => k))
  (at level 61, right associativity).

(** [for (const a of l) { await body(a) }] *)
Fixpoint forOf {A} (l : list A) (body : A -> M unit) : M unit :=
  match l with
  | [] => ret tt
  | a :: rest => body a ;;; forOf rest body
  end.

(** A computation that only adds to the heap, and does so without looking
    at it: started on [h] it does what it does on a fresh heap, after [h]. *)
Definition appends {A} (m : M A) : Prop :=
  forall h, m h = (fst (m Heap.empty), Heap.app h (snd (m Heap.empty))).

(** ** Annotations *)

Inductive AnnotationType := text | highlight | underline | comment | signature.

Definition AnnotationType_eqb (a b : AnnotationType) : bool :=
  match a, b with
  | text, text | highlight, highlight | underline, underline
  | comment, comment | signature, signature => true
  | _, _ => false
  end.

Module Annotation.
Record t :=
  mk { id : string;
       type : AnnotationType;
       content : string;
       position : Position.t;
       color : option string;
       imageData : option string }.
End Annotation.

(** [Date.now().toString()] for a clock reading [now] in milliseconds. *)
Definition Date_toString (now : Z) : string :=
  NilZero.string_of_int (Z.to_int now).


(** ** The component's state

    The [useState] cells of [PDFEditor] that the handlers below read or
    write ([isDrawing] only drives the canvas and is left out). *)

Record EditorState := {
  pdfFile : option File.t;
  pdfUrl : option ObjectURL;
  annotations : list Annotation.t;
  activeTool : AnnotationType;
  content : string;
  position : Position.t;
  color : string;
  editingId : option string;
  previewMode : bool;
  signatureData : option string;
  draggingId : option string;
  dragOffset : Point.t
}.

(** The state of a freshly mounted component. *)
Definition initialState : EditorState :=
  {| pdfFile := None; pdfUrl := None; annotations := [];
     activeTool := text; content := "";
     position := {| Position.x := 50%float; Position.y := 50%float;
                    Position.width := 100%float; Position.height := 20%float |};
     color := "#FFFF00"; editingId := None; previewMode := false;
     signatureData := None; draggingId := None;
     dragOffset := {| Point.x := 0%float; Point.y := 0%float |} |}.

(** *** State setters *)

Definition setPdfFile (v : option File.t) (s : EditorState) : EditorState :=
  {| pdfFile := v; pdfUrl := pdfUrl s; annotations := annotations s;
     activeTool := activeTool s; content := content s; position := position s;
     color := color s; editingId := editingId s; previewMode := previewMode s;
     signatureData := signatureData s; draggingId := draggingId s;
     dragOffset := dragOffset s |}.

Definition setPdfUrl (v : option ObjectURL) (s : EditorState) : EditorState :=
  {| pdfFile := pdfFile s; pdfUrl := v; annotations := annotations s;
     activeTool := activeTool s; content := content s; position := position s;
     color := color s; editingId := editingId s; previewMode := previewMode s;
     signatureData := signatureData s; draggingId := draggingId s;
     dragOffset := dragOffset s |}.

(** [setAnnotations(prev => f(prev))] *)
Definition setAnnotations (f : list Annotation.t -> list Annotation.t)
    (s : EditorState) : EditorState :=
  {| pdfFile := pdfFile s; pdfUrl := pdfUrl s; annotations := f (annotations s);
     activeTool := activeTool s; content := content s; position := position s;
     color := color s; editingId := editingId s; previewMode := previewMode s;
     signatureData := signatureData s; draggingId := draggingId s;
     dragOffset := dragOffset s |}.

Definition setActiveTool (v : AnnotationType) (s : EditorState) : EditorState :=
  {| pdfFile := pdfFile s; pdfUrl := pdfUrl s; annotations := annotations s;
     activeTool := v; content := content s; position := position s;
     color := color s; editingId := editingId s; previewMode := previewMode s;
     signatureData := signatureData s; draggingId := draggingId s;
     dragOffset := dragOffset s |}.

Definition setContent (v : string) (s : EditorState) : EditorState :=
  {| pdfFile := pdfFile s; pdfUrl := pdfUrl s; annotations := annotations s;
     activeTool := activeTool s; content := v; position := position s;
     color := color s; editingId := editingId s; previewMode := previewMode s;
     signatureData := signatureData s; draggingId := draggingId s;
     dragOffset := dragOffset s |}.

Definition setPosition (v : Position.t) (s : EditorState) : EditorState :=
  {| pdfFile := pdfFile s; pdfUrl := pdfUrl s; annotations := annotations s;
     activeTool := activeTool s; content := content s; position := v;
     color := color s; editingId := editingId s; previewMode := previewMode s;
     signatureData := signatureData s; draggingId := draggingId s;
     dragOffset := dragOffset s |}.

Definition setColor (v : string) (s : EditorState) : EditorState :=
  {| pdfFile := pdfFile s; pdfUrl := pdfUrl s; annotations := annotations s;
     activeTool := activeTool s; content := content s; position := position s;
     color := v; editingId := editingId s; previewMode := previewMode s;
     signatureData := signatureData s; draggingId := draggingId s;
     dragOffset := dragOffset s |}.

Definition setEditingId (v : option string) (s : EditorState) : EditorState :=
  {| pdfFile := pdfFile s; pdfUrl := pdfUrl s; annotations := annotations s;
     activeTool := activeTool s; content := content s; position := position s;
     color := color s; editingId := v; previewMode := previewMode s;
     signatureData := signatureData s; draggingId := draggingId s;
     dragOffset := dragOffset s |}.

Definition setPreviewMode (v : bool) (s : EditorState) : EditorState :=
  {| pdfFile := pdfFile s; pdfUrl := pdfUrl s; annotations := annotations s;
     activeTool := activeTool s; content := content s; position := position s;
     color := color s; editingId := editingId s; previewMode := v;
     signatureData := signatureData s; draggingId := draggingId s;
     dragOffset := dragOffset s |}.

Definition setSignatureData (v : option string) (s : EditorState) : EditorState :=
  {| pdfFile := pdfFile s; pdfUrl := pdfUrl s; annotations := annotations s;
     activeTool := activeTool s; content := content s; position := position s;
     color := color s; editingId := editingId s; previewMode := previewMode s;
     signatureData := v; draggingId := draggingId s;
     dragOffset := dragOffset s |}.

Definition setDraggingId (v : option string) (s : EditorState) : EditorState :=
  {| pdfFile := pdfFile s; pdfUrl := pdfUrl s; annotations := annotations s;
     activeTool := activeTool s; content := content s; position := position s;
     color := color s; editingId := editingId s; previewMode := previewMode s;
     signatureData := signatureData s; draggingId := v;
     dragOffset := dragOffset s |}.

Definition setDragOffset (v : Point.t) (s : EditorState) : EditorState :=
  {| pdfFile := pdfFile s; pdfUrl := pdfUrl s; annotations := annotations s;
     activeTool := activeTool s; content := content s; position := position s;
     color := color s; editingId := editingId s; previewMode := previewMode s;
     signatureData := signatureData s; draggingId := draggingId s;
     dragOffset := v |}.

(** ** Event handlers

    A handler runs against the state [s] of the render it was created in.
    Its reaction is the state once React has applied the queued updates, and
    the snapshots on which it started [updatePdfPreview()]: the callback it
    holds closes over [s], not over the updated state. *)

Record Reaction := { next : EditorState; renders : list EditorState }.

Definition unchanged (s : EditorState) : Reaction :=
  {| next := s; renders := [] |}.

(** [annotations.find(ann => ann.id === id)] *)
Definition findAnnotation (id : string) (l : list Annotation.t) : option Annotation.t :=
  find (fun ann => String.eqb (Annotation.id ann) id) l.

(** [editingId === id] *)
Definition isEditing (s : EditorState) (id : string) : bool :=
  match editingId s with
  | Some e => String.eqb e id
  | None => false
  end.

Definition handlePdfUpload (file : File.t) (s : EditorState) : Reaction :=
  {| next := setSignatureData None
               (setPreviewMode false
                  (setEditingId None
                     (setAnnotations (fun _ => [])
                        (setPdfUrl (Some (UrlOfFile file))
                           (setPdfFile (Some file) s)))));
     renders := [] |}.

Definition startDragging (clientX clientY : float) (id : string)
    (s : EditorState) : Reaction :=
  match findAnnotation id (annotations s) with
  | None => unchanged s
  | Some annotation =>
      {| next :=
           setDragOffset
             {| Point.x :=
                  (clientX - Position.x (Annotation.position annotation))%float;
                Point.y :=
                  (clientY - Position.y (Annotation.position annotation))%float |}
             (setDraggingId (Some id) s);
         renders := [] |}
  end.

(** [{ ...ann, position: { ...ann.position, x, y } }] *)
Definition moveTo (x y : float) (ann : Annotation.t) : Annotation.t :=
  {| Annotation.id := Annotation.id ann;
     Annotation.type := Annotation.type ann;
     Annotation.content := Annotation.content ann;
     Annotation.position :=
       {| Position.x := x; Position.y := y;
          Position.width := Position.width (Annotation.position ann);
          Position.height := Position.height (Annotation.position ann) |};
     Annotation.color := Annotation.color ann;
     Annotation.imageData := Annotation.imageData ann |}.

Definition handleDrag (clientX clientY : float) (s : EditorState) : Reaction :=
  match draggingId s with
  | Some dragging =>
      if Js.truthy dragging then
        {| next :=
             setAnnotations
               (map (fun ann =>
                       if String.eqb (Annotation.id ann) dragging
                       then moveTo (clientX - Point.x (dragOffset s))%float
                                   (clientY - Point.y (dragOffset s))%float ann
                       else ann)) s;
           renders := [] |}
      else unchanged s
  | None => unchanged s
  end.

Definition endDragging (s : EditorState) : Reaction :=
  {| next := setDraggingId None s; renders := [s] |}.

Definition startEditing (id : string) (s : EditorState) : Reaction :=
  match findAnnotation id (annotations s) with
  | None => unchanged s
  | Some annotation =>
      let s1 := setEditingId (Some id) s in
      let s2 := setActiveTool (Annotation.type annotation) s1 in
      let s3 := setContent (Annotation.content annotation) s2 in
      let s4 := setPosition (Annotation.position annotation) s3 in
      let s5 := match Annotation.color annotation with
                | Some c => if Js.truthy c then setColor c s4 else s4
                | None => s4
                end in
      let s6 := match Annotation.imageData annotation with
                | Some d => if Js.truthy d then setSignatureData (Some d) s5 else s5
                | None => s5
                end in
      {| next := setPreviewMode true s6; renders := [] |}
  end.

(** The four updates that [cancelEditing] queues. *)
Definition cancelEditing_updates (s : EditorState) : EditorState :=
  setPreviewMode false (setSignatureData None (setContent "" (setEditingId None s))).

Definition cancelEditing (s : EditorState) : Reaction :=
  {| next := cancelEditing_updates s; renders := [s] |}.

Definition deleteAnnotation (id : string) (s : EditorState) : Reaction :=
  let s1 :=
    setAnnotations
      (filter (fun ann => negb (String.eqb (Annotation.id ann) id))) s in
  if isEditing s id
  then {| next := cancelEditing_updates s1; renders := [s; s] |}
  else {| next := s1; renders := [s] |}.

(** [(!content && activeTool !== 'signature') || !pdfFile]: the early return
    of [saveAnnotation]. *)
Definition saveRefused (s : EditorState) : bool :=
  (negb (Js.truthy (content s))
   && negb (AnnotationType_eqb (activeTool s) signature))
  || match pdfFile s with None => true | Some _ => false end.

(** [['highlight', 'underline'].includes(tool)] *)
Definition takesColor (tool : AnnotationType) : bool :=
  existsb (AnnotationType_eqb tool) [highlight; underline].

(** The annotation that [saveAnnotation] builds at clock reading [now]. *)
Definition newAnnotation (now : Z) (s : EditorState) : Annotation.t :=
  {| Annotation.id :=
       match editingId s with
       | Some e => if Js.truthy e then e else Date_toString now
       | None => Date_toString now
       end;
     Annotation.type := activeTool s;
     Annotation.content :=
       if AnnotationType_eqb (activeTool s) signature then "Signature"
       else content s;
     Annotation.position := position s;
     Annotation.color :=
       if takesColor (activeTool s) then Some (color s) else None;
     Annotation.imageData :=
       if AnnotationType_eqb (activeTool s) signature
       then Js.orUndefined (signatureData s)
       else None |}.

Definition saveAnnotation (now : Z) (s : EditorState) : Reaction :=
  if saveRefused s then unchanged s
  else
    let added := newAnnotation now s in
    let s1 :=
      setAnnotations
        (fun prevAnnotations =>
           if Js.truthyOpt (editingId s)
           then map (fun ann => if isEditing s (Annotation.id ann)
                                then added else ann) prevAnnotations
           else (prevAnnotations ++ [added])%list) s in
    {| next := cancelEditing_updates s1; renders := [s] |}.

(** *** The Save button

    It is rendered inside [{pdfUrl && ...}] and [{previewMode && ...}], with
    [disabled={activeTool === 'signature' && !signatureData}] and
    [onClick={saveAnnotation}]. *)

Record Button := { disabled : bool }.

Definition saveButton (s : EditorState) : option Button :=
  match pdfUrl s with
  | Some _ =>
      if previewMode s
      then Some {| disabled :=
                     AnnotationType_eqb (activeTool s) signature
                     && negb (Js.truthyOpt (signatureData s)) |}
      else None
  | None => None
  end.

(** A click on the Save button: nothing happens when the button is not
    rendered or is disabled. *)
Definition clickSave (now : Z) (s : EditorState) : Reaction :=
  match saveButton s with
  | Some b => if disabled b then unchanged s else saveAnnotation now s
  | None => unchanged s
  end.

(** [downloadRef.current] is set while the anchor is rendered, which the
    JSX does under [annotations.length > 0]. *)
Definition downloadRef_current (s : EditorState) : bool :=
  match annotations s with
  | [] => false
  | _ :: _ => true
  end.

(** ** The compositor and the two render passes *)

Section Engine.

Context {lib : PdfLib}.

(** *** Handles and the calls made through them *)

(** A loaded document: what was parsed, and the time of the load. *)
Record PDFDocument := { parsed : Parsed; loadedAt : Z }.

Record PDFPage := { doc : PDFDocument; index : nat }.

(** [PDFDocument.load(bytes)], called at time [now] *)
Definition load (now : Z) (b : bytes) : M PDFDocument :=
  match parse b with
  | Some p => ret {| parsed := p; loadedAt := now |}
  | None => throw DecodeError
  end.

(** [pdfDoc.getPages()] *)
Definition getPages (pdfDoc : PDFDocument) : list PDFPage :=
  map (fun i => {| doc := pdfDoc; index := i |})
      (seq 0 (pageCount (parsed pdfDoc))).

(** [pdfDoc.embedFont(f)] *)
Definition embedFont (pdfDoc : PDFDocument) (f : StandardFonts) : M PDFFont.t :=
  call (EmbedFont f) ;;; ret {| PDFFont.name := f |}.

(** [pdfDoc.save()] *)
Definition save (pdfDoc : PDFDocument) : M bytes :=
  fun h =>
    (Ok (serialize (parsed pdfDoc) (loadedAt pdfDoc) (Heap.calls h)), h).

(** A method of [page], which is [undefined] when the document has no
    page: the call then throws a TypeError. *)
Definition onPage (page : option PDFPage) (op : nat -> Op) : M unit :=
  match page with
  | Some p => call (op (index p))
  | None => throw TypeError
  end.

(** [page.drawText(s, o)]: it throws on a text that the font of [o] cannot
    encode, and then draws nothing. *)
Definition drawText (page : option PDFPage) (s : string) (o : TextOptions.t)
    : M unit :=
  match page with
  | Some p =>
      if encodes (PDFFont.name (TextOptions.font o)) s
      then call (DrawText (index p) s o)
      else throw EncodingError
  | None => throw TypeError
  end.

Definition drawRectangle (page : option PDFPage) (o : RectangleOptions.t) :=
  onPage page (fun i => DrawRectangle i o).

Definition drawLine (page : option PDFPage) (o : LineOptions.t) :=
  onPage page (fun i => DrawLine i o).

Definition drawImage (page : option PDFPage) (image : PDFImage.t)
    (o : ImageOptions.t) :=
  onPage page (fun i => DrawImage i image o).

(** [page.doc] *)
Definition page_doc (page : option PDFPage) : M PDFDocument :=
  match page with
  | Some p => ret (doc p)
  | None => throw TypeError
  end.

(** [pdfDoc.embedPng(imageBytes)] *)
Definition embedPng (pdfDoc : PDFDocument) (imageBytes : bytes) : M PDFImage.t :=
  if isPng imageBytes
  then call (EmbedPng imageBytes) ;;; ret {| PDFImage.png := imageBytes |}
  else throw EmbedError.

(** [Uint8Array.from(atob(data.split(',')[1]), c => c.charCodeAt(0))] *)
Definition decodeDataUri (data : string) : M bytes :=
  match atob (Js.toDOMString (nth_error (Js.split_comma data) 1)) with
  | Some binary => ret (list_byte_of_string binary)
  | None => throw InvalidCharacterError
  end.

(** [rgb(c.r / 255, c.g / 255, c.b / 255)] *)
Definition unitColor (c : Rgb.t) : Color.t :=
  Color.rgb (inject_Z (Rgb.r c) / 255) (inject_Z (Rgb.g c) / 255)
            (inject_Z (Rgb.b c) / 255).

(** [isPreview ? rgb(0, 0, 0.5) : rgb(0, 0, 0)] *)
Definition inkColor (isPreview : bool) : Color.t :=
  if isPreview then Color.rgb 0 0 0.5 else Color.rgb 0 0 0.

(** *** [applyAnnotationToPage] *)

Definition applyAnnotationToPage (annotation : Annotation.t)
    (page : option PDFPage) (font : PDFFont.t) (isPreview : bool) : M unit :=
  let position := Annotation.position annotation in
  match Annotation.type annotation with
  | text =>
      let textOptions :=
        {| TextOptions.x := Position.x position;
           TextOptions.y := Position.y position;
           TextOptions.size := 12;
           TextOptions.font := font;
           TextOptions.color := inkColor isPreview |} in
      drawText page (Annotation.content annotation) textOptions
  | highlight =>
      match Annotation.color annotation with
      | Some c =>
          if Js.truthy c then
            let rgbColor := hexToRgb c in
            let rectOptions :=
              {| RectangleOptions.x := Position.x position;
                 RectangleOptions.y := Position.y position;
                 RectangleOptions.width := Position.width position;
                 RectangleOptions.height := Position.height position;
                 RectangleOptions.color := unitColor rgbColor;
                 RectangleOptions.opacity := if isPreview then 0.3 else 0.5 |} in
            drawRectangle page rectOptions
          else ret tt
      | None => ret tt
      end
  | underline =>
      match Annotation.color annotation with
      | Some c =>
          if Js.truthy c then
            let rgbColor := hexToRgb c in
            drawLine page
              {| LineOptions.start :=
                   {| Point.x := Position.x position;
                      Point.y := Position.y position |};
                 LineOptions.end_ :=
                   {| Point.x :=
                        (Position.x position + Position.width position)%float;
                      Point.y := Position.y position |};
                 LineOptions.thickness := 2;
                 LineOptions.color := unitColor rgbColor;
                 LineOptions.opacity := if isPreview then 0.7 else 1 |}
          else ret tt
      | None => ret tt
      end
  | comment =>
      drawText page (Annotation.content annotation)
        {| TextOptions.x := Position.x position;
           TextOptions.y := Position.y position;
           TextOptions.size := 10;
           TextOptions.font := font;
           TextOptions.color := inkColor isPreview |}
  | signature =>
      match Annotation.imageData annotation with
      | Some data =>
          if Js.truthy data then
            tryCatch
              (imageBytes <- decodeDataUri data ;;
               pdfDoc <- page_doc page ;;
               image <- embedPng pdfDoc imageBytes ;;
               drawImage page image
                 {| ImageOptions.x := Position.x position;
                    ImageOptions.y := Position.y position;
                    ImageOptions.width := 150;
                    ImageOptions.height := 60;
                    ImageOptions.opacity := if isPreview then 0.7 else 1 |})
              (fun error =>
                 effect (ConsoleError "Error embedding signature:" error))
          else ret tt
      | None => ret tt
      end
  end.

(** *** The draft shown in preview mode *)

(** [previewMode && (content || activeTool === 'signature')] *)
Definition previewing (s : EditorState) : bool :=
  previewMode s
  && (Js.truthy (content s) || AnnotationType_eqb (activeTool s) signature).

Definition previewAnnotation (s : EditorState) : Annotation.t :=
  {| Annotation.id := "preview";
     Annotation.type := activeTool s;
     Annotation.content := content s;
     Annotation.position := position s;
     Annotation.color := Some (color s);
     Annotation.imageData := Js.orUndefined (signatureData s) |}.

(** *** [updatePdfPreview] *)

Definition updatePdfPreview (now : Z) (s : EditorState) : M unit :=
  match pdfFile s with
  | None => ret tt
  | Some file =>
      tryCatch
        (let existingPdfBytes := File.arrayBuffer file in
         pdfDoc <- load now existingPdfBytes ;;
         let page := nth_error (getPages pdfDoc) 0 in
         helveticaFont <- embedFont pdfDoc Helvetica ;;
         forOf (annotations s)
           (fun ann => applyAnnotationToPage ann page helveticaFont false) ;;;
         (if previewing s
          then applyAnnotationToPage (previewAnnotation s) page helveticaFont true
          else ret tt) ;;;
         modifiedPdf <- save pdfDoc ;;
         effect (SetPdfUrl (UrlOfBlob modifiedPdf "application/pdf")))
        (fun error =>
           effect (ConsoleError "Error updating PDF preview:" error))
  end.

(** *** [downloadPdf] *)

Definition downloadPdf (now : Z) (s : EditorState) : M unit :=
  match pdfFile s with
  | None => ret tt
  | Some file =>
      if negb (downloadRef_current s) then ret tt
      else
        let existingPdfBytes := File.arrayBuffer file in
        pdfDoc <- load now existingPdfBytes ;;
        let page := nth_error (getPages pdfDoc) 0 in
        helveticaFont <- embedFont pdfDoc Helvetica ;;
        forOf (annotations s)
          (fun ann => applyAnnotationToPage ann page helveticaFont false) ;;;
        modifiedPdf <- save pdfDoc ;;
        let url := UrlOfBlob modifiedPdf "application/pdf" in
        effect (AnchorClick url "annotated-document.pdf") ;;;
        effect (RevokeObjectURL url)
  end.

(** *** Running a pass *)

(** React applies the state updates a pass queued, in order. *)
Fixpoint commit (effects : list Effect) (s : EditorState) : EditorState :=
  match effects with
  | [] => s
  | SetPdfUrl url :: rest => commit rest (setPdfUrl (Some url) s)
  | _ :: rest => commit rest s
  end.

(** A pass starts on a fresh heap: the document it works on is the one it
    loads. *)
Definition run {A} (pass : M A) : Result A * Heap.t := pass Heap.empty.

(** How the promise returned by the pass settles. *)
Definition settled {A} (pass : M A) : Result A := fst (run pass).

(** The calls the loaded document received during the pass. *)
Definition callsOf {A} (pass : M A) : list Op := Heap.calls (snd (run pass)).

Definition effectsOf {A} (pass : M A) : list Effect :=
  Heap.effects (snd (run pass)).

(** The state of the component once [updatePdfPreview] has settled. *)
Definition afterPreview (now : Z) (s : EditorState) : EditorState :=
  commit (effectsOf (updatePdfPreview now s)) s.

(** The state of the component once [downloadPdf] has settled. *)
Definition afterDownload (now : Z) (s : EditorState) : EditorState :=
  commit (effectsOf (downloadPdf now s)) s.

(** The marks one annotation leaves: the calls the document receives from
    [applyAnnotationToPage]. *)
Definition marks (annotation : Annotation.t) (page : option PDFPage)
    (font : PDFFont.t) (isPreview : bool) : list Op :=
  callsOf (applyAnnotationToPage annotation page font isPreview).

(** The effects one annotation has on the outside. *)
Definition notes (annotation : Annotation.t) (page : option PDFPage)
    (font : PDFFont.t) (isPreview : bool) : list Effect :=
  effectsOf (applyAnnotationToPage annotation page font isPreview).

(** *** Signature payloads *)

(** The payload of a data URI decodes to bytes that [embedPng] accepts. *)
Definition payloadOk (data : string) : bool :=
  match atob (Js.toDOMString (nth_error (Js.split_comma data) 1)) with
  | Some binary => isPng (list_byte_of_string binary)
  | None => false
  end.

(** A signature annotation that carries a payload which fails to decode. *)
Definition malformedSignature (annotation : Annotation.t) : bool :=
  AnnotationType_eqb (Annotation.type annotation) signature
  && match Annotation.imageData annotation with
     | Some data => Js.truthy data && negb (payloadOk data)
     | None => false
     end.

(** The store with the malformed signatures taken out. *)
Definition wellFormedOnly (l : list Annotation.t) : list Annotation.t :=
  filter (fun ann => negb (malformedSignature ann)) l.

(** *** Texts the font cannot encode *)

(** [page.drawText] accepts what the annotation has it draw: the content
    of a text or of a comment is one the font can encode.  The other kinds
    draw no text. *)
Definition drawable (font : PDFFont.t) (annotation : Annotation.t) : bool :=
  match Annotation.type annotation with
  | text | comment =>
      encodes (PDFFont.name font) (Annotation.content annotation)
  | highlight | underline | signature => true
  end.

(** The annotations before the first one that is not drawable. *)
Fixpoint drawnPrefix (font : PDFFont.t) (l : list Annotation.t)
    : list Annotation.t :=
  match l with
  | [] => []
  | a :: rest => if drawable font a then a :: drawnPrefix font rest else []
  end.

End Engine.

(** ** The rule on the [color] field

    [color] is set exactly on highlights and underlines. *)
Definition colorRule (annotation : Annotation.t) : Prop :=
  Annotation.color annotation <> None <->
  (Annotation.type annotation = highlight \/ Annotation.type annotation = underline).

(** ** A test double of the library

    A small instance of [PdfLib] on which the passes can be run: a source
    document is well-formed when it starts with "%PDF" and then has one
    page, the font encodes the texts whose characters WinAnsi has, an
    image is accepted when it starts with the PNG signature, and a saved
    document is its source followed by one letter per call received and by
    the second it was loaded in, as pdf-lib writes the date of the load
    into the document.  [atob] is the usual base64 decoding of a padded
    input. *)

Module Double.

(** The value of a base64 digit. *)
Definition sextet (c : ascii) : option N :=
  let n := N.of_nat (nat_of_ascii c) in
  (if (65 <=? n) && (n <=? 90) then Some (n - 65)
   else if (97 <=? n) && (n <=? 122) then Some (n - 71)
   else if (48 <=? n) && (n <=? 57) then Some (n + 4)
   else if n =? 43 then Some 62
   else if n =? 47 then Some 63
   else None)%N.

Definition char (n : N) : ascii := ascii_of_N (n mod 256).

(** Four digits at a time; padding is allowed in the last group only. *)
Fixpoint decode (fuel : nat) (s : string) : option string :=
  match fuel with
  | O => None
  | S fuel' =>
      match s with
      | EmptyString => Some EmptyString
      | String c1 (String c2 (String c3 (String c4 rest))) =>
          match sextet c1, sextet c2 with
          | Some v1, Some v2 =>
              let b1 := char (v1 * 4 + v2 / 16) in
              if Ascii.eqb c3 "="%char then
                if Ascii.eqb c4 "="%char
                then match rest with
                     | EmptyString => Some (String b1 EmptyString)
                     | _ => None
                     end
                else None
              else
                match sextet c3 with
                | Some v3 =>
                    let b2 := char ((v2 mod 16) * 16 + v3 / 4) in
                    if Ascii.eqb c4 "="%char
                    then match rest with
                         | EmptyString => Some (String b1 (String b2 EmptyString))
                         | _ => None
                         end
                    else
                      match sextet c4, decode fuel' rest with
                      | Some v4, Some tail =>
                          let b3 := char ((v3 mod 4) * 64 + v4) in
                          Some (String b1 (String b2 (String b3 tail)))
                      | _, _ => None
                      end
                | None => None
                end
          | _, _ => None
          end
      | _ => None
      end
  end.

Definition base64 (s : string) : option string := decode (S (String.length s)) s.

Fixpoint startsWith (prefix l : bytes) : bool :=
  match prefix, l with
  | [], _ => true
  | p :: prefix', b :: l' => Byte.eqb p b && startsWith prefix' l'
  | _ :: _, [] => false
  end.

Definition pdfHeader : bytes := list_byte_of_string "%PDF".

Definition pngSignature : bytes :=
  [Byte.x89; Byte.x50; Byte.x4e; Byte.x47; Byte.x0d; Byte.x0a; Byte.x1a; Byte.x0a].

Definition letter (op : Op) : Byte.byte :=
  match op with
  | EmbedFont _ => Byte.x46
  | DrawText _ _ _ => Byte.x54
  | DrawRectangle _ _ => Byte.x52
  | DrawLine _ _ => Byte.x4c
  | EmbedPng _ => Byte.x50
  | DrawImage _ _ _ => Byte.x49
  end.

(** A character that [drawText] takes with a standard font: one that
    WinAnsi has a code for (from the space to the tilde, and from the
    no-break space on), or a tab or line break, which [drawText] handles
    itself. *)
Definition printable (c : ascii) : bool :=
  let n := N.of_nat (nat_of_ascii c) in
  ((32 <=? n) && (n <=? 126) || (160 <=? n)
   || (n =? 9) || (n =? 10) || (n =? 13))%N.

Definition allPrintable (s : string) : bool :=
  forallb printable (list_ascii_of_string s).

(** The second of a time in milliseconds, in decimal. *)
Definition dateStamp (loadedAt : Z) : bytes :=
  list_byte_of_string (Date_toString (loadedAt / 1000)).

Definition lib : PdfLib :=
  {| Parsed := bytes;
     parse := fun b => if startsWith pdfHeader b then Some b else None;
     pageCount := fun _ => 1%nat;
     encodes := fun _ => allPrintable;
     atob := base64;
     isPng := startsWith pngSignature;
     serialize := fun source loadedAt ops =>
       (source ++ map letter ops ++ dateStamp loadedAt)%list |}.

(** A one-page source document and a file that is no document. *)
Definition goodFile : File.t := {| File.arrayBuffer := list_byte_of_string "%PDF-1.7" |}.
Definition badFile : File.t := {| File.arrayBuffer := list_byte_of_string "hello" |}.

(** A data URI holding the eight bytes of the PNG signature, and one
    whose payload decodes to other bytes. *)
Definition goodSignature : string := "data:image/png;base64,iVBORw0KGgo=".
Definition corruptSignature : string := "data:image/png;base64,aGVsbG8=".

End Double.

(** ** Scenarios run on the test double *)

(** The scenario of a committed yellow highlight with a text draft "Hi". *)
Definition yellowHighlight : Annotation.t :=
  {| Annotation.id := "1700000000000";
     Annotation.type := highlight;
     Annotation.content := "area";
     Annotation.position :=
       {| Position.x := 50%float; Position.y := 50%float;
          Position.width := 100%float; Position.height := 20%float |};
     Annotation.color := Some "#FFFF00";
     Annotation.imageData := None |}.

Definition corruptedSignature : Annotation.t :=
  {| Annotation.id := "1700000000001";
     Annotation.type := signature;
     Annotation.content := "Signature";
     Annotation.position :=
       {| Position.x := 10%float; Position.y := 10%float;
          Position.width := 100%float; Position.height := 20%float |};
     Annotation.color := None;
     Annotation.imageData := Some Double.corruptSignature |}.

(** The note "Hi" at (10, 10). *)
Definition hiNote : Annotation.t :=
  {| Annotation.id := "1700000000004";
     Annotation.type := text;
     Annotation.content := "Hi";
     Annotation.position :=
       {| Position.x := 10%float; Position.y := 10%float;
          Position.width := 100%float; Position.height := 20%float |};
     Annotation.color := None;
     Annotation.imageData := None |}.

(** A note that starts with the control character of code 129, for which
    WinAnsi has no code. *)
Definition unencodableNote : Annotation.t :=
  {| Annotation.id := "1700000000010";
     Annotation.type := text;
     Annotation.content := String (ascii_of_nat 129) "note";
     Annotation.position :=
       {| Position.x := 10%float; Position.y := 10%float;
          Position.width := 100%float; Position.height := 20%float |};
     Annotation.color := None;
     Annotation.imageData := None |}.

(** A red underline, 80 wide, starting at (30, 40). *)
Definition redUnderline : Annotation.t :=
  {| Annotation.id := "1700000000005";
     Annotation.type := underline;
     Annotation.content := "title";
     Annotation.position :=
       {| Position.x := 30%float; Position.y := 40%float;
          Position.width := 80%float; Position.height := 20%float |};
     Annotation.color := Some "#ff0000";
     Annotation.imageData := None |}.

(** The page of the document that [Double.goodFile] decodes to. *)
Definition goodPage : @PDFPage Double.lib :=
  @Build_PDFPage Double.lib
    (@Build_PDFDocument Double.lib (File.arrayBuffer Double.goodFile)
       1700000000000) 0.

(** A highlight saved with no colour. *)
Definition colorlessHighlight : Annotation.t :=
  {| Annotation.id := "1700000000003";
     Annotation.type := highlight;
     Annotation.content := "area";
     Annotation.position :=
       {| Position.x := 50%float; Position.y := 50%float;
          Position.width := 100%float; Position.height := 20%float |};
     Annotation.color := None;
     Annotation.imageData := None |}.

(** A loaded document, one committed highlight, nothing being edited. *)
Definition oneHighlight : EditorState :=
  setAnnotations (fun _ => [yellowHighlight])
    (next (handlePdfUpload Double.goodFile initialState)).

(** The same with the text "Hi" typed at (10, 10) and preview mode on. *)
Definition highlightAndDraft : EditorState :=
  setPreviewMode true
    (setPosition {| Position.x := 10%float; Position.y := 10%float;
                    Position.width := 0%float; Position.height := 0%float |}
       (setContent "Hi" oneHighlight)).

(** A committed highlight and a committed signature with a bad payload. *)
Definition highlightAndCorruptedSignature : EditorState :=
  setAnnotations (fun _ => [yellowHighlight; corruptedSignature]) oneHighlight.

(** A committed note that the font cannot encode, then the highlight. *)
Definition unencodableThenHighlight : EditorState :=
  setAnnotations (fun _ => [unencodableNote; yellowHighlight]) oneHighlight.

(** A file that is no document has been dropped on the component. *)
Definition undecodable : EditorState :=
  setAnnotations (fun _ => [yellowHighlight])
    (next (handlePdfUpload Double.badFile initialState)).

(** The signature tool is selected and nothing has been drawn. *)
Definition emptySignatureDraft : EditorState :=
  setPreviewMode true (setActiveTool signature oneHighlight).

(** ** More of the component

    The toolbar, and the shapes that the handlers keep on the committed
    annotations. *)

(** A click on the toolbar button of [tool]. *)
Definition selectTool (tool : AnnotationType) (s : EditorState) : Reaction :=
  {| next := setEditingId None (setPreviewMode false (setActiveTool tool s));
     renders := [] |}.

(** An annotation has content and an identifier. *)
Definition hasContentAndId (annotation : Annotation.t) : Prop :=
  Annotation.content annotation <> EmptyString
  /\ Annotation.id annotation <> EmptyString.

(** A signature annotation carries image data. *)
Definition signed (annotation : Annotation.t) : Prop :=
  Annotation.type annotation = signature ->
  Js.truthyOpt (Annotation.imageData annotation) = true.

(** The annotation under edit, if any, is one of the committed ones. *)
Definition editingExists (s : EditorState) : Prop :=
  forall e, editingId s = Some e -> In e (map Annotation.id (annotations s)).

(** An annotation has the fields [saveAnnotation] gives to its kind: a
    non-empty colour on highlights and underlines and none elsewhere, the
    label "Signature" and image data on signatures, content and no image
    data elsewhere. *)
Definition savedShape (a : Annotation.t) : Prop :=
  (takesColor (Annotation.type a) = true ->
   exists c, Annotation.color a = Some c /\ c <> EmptyString)
  /\ (takesColor (Annotation.type a) = false -> Annotation.color a = None)
  /\ (Annotation.type a = signature ->
      Annotation.content a = "Signature"
      /\ exists d, Annotation.imageData a = Some d /\ d <> EmptyString)
  /\ (Annotation.type a <> signature ->
      Annotation.imageData a = None /\ Annotation.content a <> EmptyString).

(** The upper-case form of an ASCII letter; any other character is kept. *)
Definition upcase (c : ascii) : ascii :=
  let n := nat_of_ascii c in
  if ((97 <=? n) && (n <=? 122))%nat then ascii_of_nat (n - 32) else c.

(** The text with its ASCII letters in upper case. *)
Fixpoint toUpperCase (s : string) : string :=
  match s with
  | EmptyString => EmptyString
  | String c rest => String (upcase c) (toUpperCase rest)
  end.

(** The text has no comma. *)
Definition commaFree (s : string) : Prop :=
  ~ In ","%char (list_ascii_of_string s).

(** Only lines of the console. *)
Definition consoleOnly (effects : list Effect) : Prop :=
  Forall (fun e => exists message error, e = ConsoleError message error) effects.

Section Payloads.

Context {lib : PdfLib}.

(** What [decodeDataUri] does once it has the text to hand to [atob]. *)
Definition decodeText (payload : string) : M bytes :=
  match atob payload with
  | Some binary => ret (list_byte_of_string binary)
  | None => throw InvalidCharacterError
  end.

End Payloads.

(** *** More scenarios *)

(** The test double, but every document it decodes has no page. *)
Definition pagelessLib : PdfLib :=
  {| Parsed := bytes;
     parse := fun b => if Double.startsWith Double.pdfHeader b then Some b else None;
     pageCount := fun _ => 0%nat;
     encodes := fun _ => Double.allPrintable;
     atob := Double.base64;
     isPng := Double.startsWith Double.pngSignature;
     serialize := fun source loadedAt ops =>
       (source ++ map Double.letter ops ++ Double.dateStamp loadedAt)%list |}.

(** A signature with a payload that decodes to the PNG signature. *)
Definition goodSigned : Annotation.t :=
  {| Annotation.id := "1700000000006";
     Annotation.type := signature;
     Annotation.content := "Signature";
     Annotation.position :=
       {| Position.x := 20%float; Position.y := 30%float;
          Position.width := 100%float; Position.height := 20%float |};
     Annotation.color := None;
     Annotation.imageData := Some Double.goodSignature |}.

(** A signature whose image data is no data URI. *)
Definition commalessSigned : Annotation.t :=
  {| Annotation.id := "1700000000007";
     Annotation.type := signature;
     Annotation.content := "Signature";
     Annotation.position :=
       {| Position.x := 20%float; Position.y := 30%float;
          Position.width := 100%float; Position.height := 20%float |};
     Annotation.color := None;
     Annotation.imageData := Some "iVBORw0KGgo=" |}.

(** The comment "ok" at (5, 5). *)
Definition okComment : Annotation.t :=
  {| Annotation.id := "1700000000008";
     Annotation.type := comment;
     Annotation.content := "ok";
     Annotation.position :=
       {| Position.x := 5%float; Position.y := 5%float;
          Position.width := 100%float; Position.height := 20%float |};
     Annotation.color := None;
     Annotation.imageData := None |}.

(** The committed highlight has been opened in the form. *)
Definition editingHighlight : EditorState :=
  next (startEditing "1700000000000" oneHighlight).

(** A loaded document with the note "Hi" committed. *)
Definition oneNote : EditorState :=
  setAnnotations (fun _ => [hiNote]) oneHighlight.

(** * Properties *)

(** ** The colour codec *)

Lemma isHexDigit_alphabet (c : ascii) :
  isHexDigit c = existsb (Ascii.eqb c) hexAlphabet.
Proof.
  destruct c as [[] [] [] [] [] [] [] []]; reflexivity.
Qed.

Lemma isHexDigit_In (c : ascii) : isHexDigit c = true <-> In c hexAlphabet.
Proof.
  rewrite isHexDigit_alphabet, existsb_exists. split.
  - intros [d [Hd Heq]]. apply Ascii.eqb_eq in Heq. now subst.
  - intros Hin. exists c. split; [assumption | apply Ascii.eqb_refl].
Qed.

Lemma digit16_hexValue (c : ascii) :
  isHexDigit c = true -> digit16 c = Some (hexValue c) /\ 0 <= hexValue c <= 15.
Proof.
  destruct c as [[] [] [] [] [] [] [] []]; vm_compute;
    first [discriminate | intros _; split; [reflexivity | split; discriminate]].
Qed.

Lemma hash_not_hex (c : ascii) :
  isHexDigit c = true -> Ascii.eqb c "#"%char = false.
Proof.
  destruct (Ascii.eqb_spec c "#"%char) as [-> | _]; [discriminate | reflexivity].
Qed.

Lemma parseInt16_pair (c1 c2 : ascii) :
  isHexDigit c1 = true -> isHexDigit c2 = true ->
  parseInt16 (String c1 (String c2 EmptyString)) = 16 * hexValue c1 + hexValue c2
  /\ 0 <= 16 * hexValue c1 + hexValue c2 <= 255.
Proof.
  intros H1 H2.
  destruct (digit16_hexValue c1 H1) as [E1 R1].
  destruct (digit16_hexValue c2 H2) as [E2 R2].
  unfold parseInt16. cbn [parseInt16_from]. rewrite E1, E2.
  split; [f_equal; lia | lia].
Qed.

(** Six hexadecimal digits, spelled out. *)
Lemma sixHexDigits_inv (ds : string) :
  sixHexDigits ds ->
  exists c1 c2 c3 c4 c5 c6,
    ds = String c1 (String c2 (String c3 (String c4 (String c5 (String c6 EmptyString)))))
    /\ isHexDigit c1 = true /\ isHexDigit c2 = true /\ isHexDigit c3 = true
    /\ isHexDigit c4 = true /\ isHexDigit c5 = true /\ isHexDigit c6 = true.
Proof.
  intros [Hlen Hall].
  destruct ds as [|c1 [|c2 [|c3 [|c4 [|c5 [|c6 [|c7 ds]]]]]]]; try discriminate.
  cbn in Hall.
  repeat match goal with
         | H : Forall _ (_ :: _) |- _ => inversion H; subst; clear H
         end.
  exists c1, c2, c3, c4, c5, c6.
  repeat split; try reflexivity; now apply isHexDigit_In.
Qed.

Lemma groups_sixHexDigits (c1 c2 c3 c4 c5 c6 : ascii) :
  isHexDigit c1 = true -> isHexDigit c2 = true -> isHexDigit c3 = true ->
  isHexDigit c4 = true -> isHexDigit c5 = true -> isHexDigit c6 = true ->
  groups (String c1 (String c2 (String c3 (String c4 (String c5 (String c6 EmptyString))))))
  = Some (String c1 (String c2 EmptyString),
          String c3 (String c4 EmptyString),
          String c5 (String c6 EmptyString)).
Proof.
  intros H1 H2 H3 H4 H5 H6. unfold groups, group2.
  rewrite H1, H2; cbn [andb]. rewrite H3, H4; cbn [andb].
  rewrite H5, H6; reflexivity.
Qed.

(** What [groups] accepts is six hexadecimal digits. *)
Lemma groups_Some (s : string) (m : string * string * string) :
  groups s = Some m -> sixHexDigits s.
Proof.
  unfold groups, group2. intros H.
  destruct s as [|c1 [|c2 s]]; try discriminate.
  destruct (isHexDigit c1) eqn:H1; [|discriminate].
  destruct (isHexDigit c2) eqn:H2; [|discriminate].
  cbn [andb] in H.
  destruct s as [|c3 [|c4 s]]; try discriminate.
  destruct (isHexDigit c3) eqn:H3; [|discriminate].
  destruct (isHexDigit c4) eqn:H4; [|discriminate].
  cbn [andb] in H.
  destruct s as [|c5 [|c6 s]]; try discriminate.
  destruct (isHexDigit c5) eqn:H5; [|discriminate].
  destruct (isHexDigit c6) eqn:H6; [|discriminate].
  cbn [andb] in H.
  destruct s; [|discriminate].
  split; [reflexivity|].
  cbn [list_ascii_of_string].
  repeat (apply Forall_cons; [now apply isHexDigit_In|]). apply Forall_nil.
Qed.

Lemma exec_Some (hex : string) (m : string * string * string) :
  exec hex = Some m -> colorShape hex.
Proof.
  unfold exec. intros H.
  destruct hex as [|c rest].
  - apply groups_Some in H. exists EmptyString. split; [assumption | now left].
  - destruct (Ascii.eqb_spec c "#"%char) as [-> | Hc].
    + destruct (groups rest) as [m'|] eqn:Hrest.
      * exists rest. split; [eapply groups_Some; eassumption | now right].
      * apply groups_Some in H. eexists. split; [eassumption | now left].
    + apply groups_Some in H. eexists. split; [eassumption | now left].
Qed.

Lemma exec_sixHexDigits (hex ds : string) :
  sixHexDigits ds -> hex = ds \/ hex = String "#" ds ->
  exists c1 c2 c3 c4 c5 c6,
    ds = String c1 (String c2 (String c3 (String c4 (String c5 (String c6 EmptyString)))))
    /\ isHexDigit c1 = true /\ isHexDigit c2 = true /\ isHexDigit c3 = true
    /\ isHexDigit c4 = true /\ isHexDigit c5 = true /\ isHexDigit c6 = true
    /\ exec hex = Some (String c1 (String c2 EmptyString),
                        String c3 (String c4 EmptyString),
                        String c5 (String c6 EmptyString)).
Proof.
  intros Hds Hhex.
  destruct (sixHexDigits_inv ds Hds)
    as (c1 & c2 & c3 & c4 & c5 & c6 & -> & H1 & H2 & H3 & H4 & H5 & H6).
  exists c1, c2, c3, c4, c5, c6.
  repeat (split; [first [reflexivity | assumption]|]).
  pose proof (groups_sixHexDigits c1 c2 c3 c4 c5 c6 H1 H2 H3 H4 H5 H6) as G.
  destruct Hhex as [-> | ->]; unfold exec.
  - rewrite (hash_not_hex c1 H1). exact G.
  - rewrite Ascii.eqb_refl, G. reflexivity.
Qed.

(** C5. [hexToRgb] accepts an optional leading '#' followed by exactly six
    hexadecimal digits of either case and returns the three channels they
    spell, each in [0,255] ("#FF00AA" gives 255, 0, 170); on every input of
    another shape ("ZZZZZZ" for one) it returns black, and it is total, so
    no error is raised. *)
Theorem hexToRgb_accepts_six_hex_digits_else_black :
  (forall hex ds : string,
      sixHexDigits ds -> hex = ds \/ hex = String "#" ds ->
      hexToRgb hex = decodeDigits ds /\ channelsInRange (hexToRgb hex))
  /\ (forall hex : string, ~ colorShape hex -> hexToRgb hex = black)
  /\ hexToRgb "#FF00AA" = {| Rgb.r := 255; Rgb.g := 0; Rgb.b := 170 |}
  /\ hexToRgb "#ff00aa" = {| Rgb.r := 255; Rgb.g := 0; Rgb.b := 170 |}
  /\ hexToRgb "ZZZZZZ" = black.
Proof.
  split; [|split; [|repeat split]].
  - intros hex ds Hds Hhex.
    destruct (exec_sixHexDigits hex ds Hds Hhex)
      as (c1 & c2 & c3 & c4 & c5 & c6 & -> & H1 & H2 & H3 & H4 & H5 & H6 & E).
    unfold hexToRgb. rewrite E. cbn [decodeDigits list_ascii_of_string].
    destruct (parseInt16_pair c1 c2 H1 H2) as [-> R].
    destruct (parseInt16_pair c3 c4 H3 H4) as [-> G].
    destruct (parseInt16_pair c5 c6 H5 H6) as [-> B].
    split; [reflexivity | unfold channelsInRange; cbn [Rgb.r Rgb.g Rgb.b]; lia].
  - intros hex Hshape. unfold hexToRgb.
    destruct (exec hex) as [m|] eqn:E; [|reflexivity].
    exfalso. apply Hshape. eapply exec_Some. eassumption.
Qed.

Lemma sixHexDigits_FF00AA : sixHexDigits "FF00AA".
Proof.
  split; [reflexivity|]. cbn [list_ascii_of_string].
  repeat (apply Forall_cons; [apply isHexDigit_In; reflexivity|]). apply Forall_nil.
Qed.

Lemma not_colorShape_ZZZZZZ : ~ colorShape "ZZZZZZ".
Proof.
  intros [ds [Hds [E | E]]]; [subst ds | discriminate].
  destruct Hds as [_ Hall]. cbn in Hall. inversion Hall as [|? ? Hz _]; subst.
  apply isHexDigit_In in Hz. discriminate.
Qed.

Lemma hexToRgb_accepts_six_hex_digits_else_black_witness :
  (hexToRgb "#FF00AA" = decodeDigits "FF00AA" /\ channelsInRange (hexToRgb "#FF00AA"))
  /\ hexToRgb "ZZZZZZ" = black.
Proof.
  destruct hexToRgb_accepts_six_hex_digits_else_black as (Hacc & Hrej & _).
  split.
  - apply (Hacc "#FF00AA" "FF00AA" sixHexDigits_FF00AA). right. reflexivity.
  - apply (Hrej "ZZZZZZ" not_colorShape_ZZZZZZ).
Defined.

(** ** The monad: computations that only append *)

Lemma Heap_app_empty_l (h : Heap.t) : Heap.app Heap.empty h = h.
Proof. destruct h; reflexivity. Qed.

Lemma Heap_app_empty_r (h : Heap.t) : Heap.app h Heap.empty = h.
Proof. destruct h; unfold Heap.app; cbn. now rewrite !app_nil_r. Qed.

Lemma Heap_app_assoc (h k l : Heap.t) :
  Heap.app (Heap.app h k) l = Heap.app h (Heap.app k l).
Proof. unfold Heap.app; cbn. now rewrite !app_assoc. Qed.

Lemma appends_ret {A} (a : A) : appends (ret a).
Proof. intros h. unfold ret; cbn. now rewrite Heap_app_empty_r. Qed.

Lemma appends_throw {A} (e : Error) : appends (@throw A e).
Proof. intros h. unfold throw; cbn. now rewrite Heap_app_empty_r. Qed.

Lemma appends_call (op : Op) : appends (call op).
Proof. intros h. unfold call, Heap.app; cbn. now rewrite app_nil_r. Qed.

Lemma appends_effect (e : Effect) : appends (effect e).
Proof. intros h. unfold effect, Heap.app; cbn. now rewrite app_nil_r. Qed.

Lemma appends_bind {A B} (m : M A) (k : A -> M B) :
  appends m -> (forall a, appends (k a)) -> appends (bind m k).
Proof.
  intros Hm Hk h. unfold bind. rewrite (Hm h).
  destruct (m Heap.empty) as [[a | e] hm]; cbn [fst snd].
  - rewrite (Hk a (Heap.app h hm)), (Hk a hm). cbn [fst snd].
    now rewrite Heap_app_assoc.
  - reflexivity.
Qed.

Lemma appends_tryCatch {A} (body : M A) (handler : Error -> M A) :
  appends body -> (forall e, appends (handler e)) -> appends (tryCatch body handler).
Proof.
  intros Hm Hk h. unfold tryCatch. rewrite (Hm h).
  destruct (body Heap.empty) as [[a | e] hm]; cbn [fst snd].
  - reflexivity.
  - rewrite (Hk e (Heap.app h hm)), (Hk e hm). cbn [fst snd].
    now rewrite Heap_app_assoc.
Qed.

Lemma appends_forOf {A} (l : list A) (body : A -> M unit) :
  (forall a, appends (body a)) -> appends (forOf l body).
Proof.
  intros Hbody. induction l as [|a l IH]; cbn [forOf].
  - apply appends_ret.
  - apply appends_bind; [apply Hbody | intros _; exact IH].
Qed.

Create HintDb appends.

#[local] Hint Resolve appends_ret appends_throw appends_call appends_effect
  appends_bind appends_tryCatch appends_forOf : appends.

(** ** The compositor *)

Section Compositor.

Context {lib : PdfLib}.

Lemma appends_onPage (page : option PDFPage) (op : nat -> Op) :
  appends (onPage page op).
Proof. destruct page; cbn; auto with appends. Qed.

Lemma appends_drawText (page : option PDFPage) (s : string) (o : TextOptions.t) :
  appends (drawText page s o).
Proof.
  unfold drawText. destruct page; [destruct (encodes _ s)|]; auto with appends.
Qed.

Lemma appends_embedPng (pdfDoc : PDFDocument) (imageBytes : bytes) :
  appends (embedPng pdfDoc imageBytes).
Proof. unfold embedPng. destruct (isPng imageBytes); auto with appends. Qed.

Lemma appends_decodeDataUri (data : string) : appends (decodeDataUri data).
Proof. unfold decodeDataUri. destruct (atob _); auto with appends. Qed.

Lemma appends_page_doc (page : option PDFPage) : appends (page_doc page).
Proof. destruct page; cbn; auto with appends. Qed.

(** [applyAnnotationToPage] only adds to the document and to the console. *)
Lemma appends_applyAnnotationToPage (annotation : Annotation.t)
    (page : option PDFPage) (font : PDFFont.t) (isPreview : bool) :
  appends (applyAnnotationToPage annotation page font isPreview).
Proof.
  unfold applyAnnotationToPage, drawRectangle, drawLine, drawImage.
  destruct (Annotation.type annotation).
  - apply appends_drawText.
  - destruct (Annotation.color annotation) as [c|]; [destruct (Js.truthy c)|];
      auto using appends_onPage with appends.
  - destruct (Annotation.color annotation) as [c|]; [destruct (Js.truthy c)|];
      auto using appends_onPage with appends.
  - apply appends_drawText.
  - destruct (Annotation.imageData annotation) as [d|]; [destruct (Js.truthy d)|];
      auto with appends.
    apply appends_tryCatch; [|auto with appends].
    apply appends_bind; [apply appends_decodeDataUri | intros imageBytes].
    apply appends_bind; [apply appends_page_doc | intros pdfDoc].
    apply appends_bind; [apply appends_embedPng | intros image].
    apply appends_onPage.
Qed.

(** On a page that exists, [applyAnnotationToPage] settles on every
    annotation whose text, if it draws one, the font can encode. *)
Lemma applyAnnotationToPage_settles (annotation : Annotation.t) (p : PDFPage)
    (font : PDFFont.t) (isPreview : bool) (h : Heap.t) :
  drawable font annotation = true ->
  fst (applyAnnotationToPage annotation (Some p) font isPreview h) = Ok tt.
Proof.
  unfold drawable, applyAnnotationToPage, drawText, drawRectangle, drawLine,
    drawImage.
  destruct (Annotation.type annotation); cbn [TextOptions.font]; intros Hok;
    try (rewrite Hok; reflexivity).
  - destruct (Annotation.color annotation) as [c|]; [destruct (Js.truthy c)|];
      reflexivity.
  - destruct (Annotation.color annotation) as [c|]; [destruct (Js.truthy c)|];
      reflexivity.
  - destruct (Annotation.imageData annotation) as [d|]; [destruct (Js.truthy d)|];
      try reflexivity.
    unfold tryCatch, bind, decodeDataUri, embedPng, page_doc, onPage.
    destruct (atob _) as [binary|]; [|reflexivity].
    cbn. destruct (isPng _); reflexivity.
Qed.

(** On a text that the font cannot encode it throws, and leaves the
    document and the console as they were. *)
Lemma applyAnnotationToPage_refused (annotation : Annotation.t) (p : PDFPage)
    (font : PDFFont.t) (isPreview : bool) (h : Heap.t) :
  drawable font annotation = false ->
  applyAnnotationToPage annotation (Some p) font isPreview h
  = (Throw EncodingError, h).
Proof.
  unfold drawable, applyAnnotationToPage, drawText.
  destruct (Annotation.type annotation); cbn [TextOptions.font]; intros Hno;
    try discriminate; rewrite Hno; reflexivity.
Qed.

Lemma refused_leaves_nothing (annotation : Annotation.t) (p : PDFPage)
    (font : PDFFont.t) (isPreview : bool) :
  drawable font annotation = false ->
  marks annotation (Some p) font isPreview = []
  /\ notes annotation (Some p) font isPreview = [].
Proof.
  intros Hno. unfold marks, notes, callsOf, effectsOf, run.
  now rewrite (applyAnnotationToPage_refused _ _ _ _ _ Hno).
Qed.

Lemma applyAnnotationToPage_on_page (annotation : Annotation.t) (p : PDFPage)
    (font : PDFFont.t) (isPreview : bool) (h : Heap.t) :
  drawable font annotation = true ->
  applyAnnotationToPage annotation (Some p) font isPreview h =
  (Ok tt,
   {| Heap.calls := Heap.calls h ++ marks annotation (Some p) font isPreview;
      Heap.effects := Heap.effects h ++ notes annotation (Some p) font isPreview |}).
Proof.
  intros Hok.
  rewrite (appends_applyAnnotationToPage annotation (Some p) font isPreview h).
  rewrite (applyAnnotationToPage_settles _ _ _ _ _ Hok). reflexivity.
Qed.

Lemma drawnPrefix_all (font : PDFFont.t) (l : list Annotation.t) :
  forallb (drawable font) l = true -> drawnPrefix font l = l.
Proof.
  induction l as [|a l IH]; [reflexivity|]. cbn [forallb drawnPrefix].
  intros H. apply andb_true_iff in H. destruct H as [-> Hl]. now rewrite IH.
Qed.

(** The loop over the committed annotations leaves their marks in the
    order of the list, up to the first annotation that [page.drawText]
    refuses, where it throws. *)
Lemma forOf_applyAnnotationToPage (l : list Annotation.t) (p : PDFPage)
    (font : PDFFont.t) (isPreview : bool) (h : Heap.t) :
  forOf l (fun ann => applyAnnotationToPage ann (Some p) font isPreview) h =
  (if forallb (drawable font) l then Ok tt else Throw EncodingError,
   {| Heap.calls :=
        Heap.calls h
        ++ flat_map (fun ann => marks ann (Some p) font isPreview)
                    (drawnPrefix font l);
      Heap.effects :=
        Heap.effects h
        ++ flat_map (fun ann => notes ann (Some p) font isPreview)
                    (drawnPrefix font l) |}).
Proof.
  revert h. induction l as [|a l IH]; intros h;
    cbn [forOf forallb drawnPrefix flat_map].
  - unfold ret. rewrite !app_nil_r. now destruct h.
  - unfold bind at 1. destruct (drawable font a) eqn:Ha.
    + rewrite (applyAnnotationToPage_on_page _ _ _ _ _ Ha), IH.
      cbn [Heap.calls Heap.effects andb flat_map]. now rewrite !app_assoc.
    + rewrite (applyAnnotationToPage_refused _ _ _ _ _ Ha).
      cbn [andb flat_map]. rewrite !app_nil_r. now destruct h.
Qed.

(** C8. The compositor draws each kind with fixed parameters.  Text: the
    content at (x, y), size 12, black when committed and the navy tint
    rgb(0, 0, 0.5) when a draft, when the font can encode the content;
    when it cannot, [page.drawText] throws and nothing is drawn.
    Highlight: a rectangle over the geometry in the parsed colour, opacity
    0.5 committed and 0.3 draft.  Underline: a line from (x, y) to
    (x + width, y), the sum being the sum of doubles, thickness 2, in the
    parsed colour, opacity 1 committed and 0.7 draft.  Highlight and
    underline draw when their colour is a non-empty string. *)
Theorem applyAnnotationToPage_fixed_parameters (annotation : Annotation.t)
    (p : PDFPage) (font : PDFFont.t) (isPreview : bool) (h : Heap.t) :
  let pos := Annotation.position annotation in
  (Annotation.type annotation = text ->
   encodes (PDFFont.name font) (Annotation.content annotation) = true ->
   applyAnnotationToPage annotation (Some p) font isPreview h =
   call (DrawText (index p) (Annotation.content annotation)
           {| TextOptions.x := Position.x pos;
              TextOptions.y := Position.y pos;
              TextOptions.size := 12;
              TextOptions.font := font;
              TextOptions.color :=
                if isPreview then Color.rgb 0 0 0.5 else Color.rgb 0 0 0 |}) h)
  /\ (Annotation.type annotation = text ->
      encodes (PDFFont.name font) (Annotation.content annotation) = false ->
      applyAnnotationToPage annotation (Some p) font isPreview h
      = (Throw EncodingError, h))
  /\ (forall c : string,
        Annotation.type annotation = highlight ->
        Annotation.color annotation = Some c -> c <> EmptyString ->
        applyAnnotationToPage annotation (Some p) font isPreview h =
        call (DrawRectangle (index p)
                {| RectangleOptions.x := Position.x pos;
                   RectangleOptions.y := Position.y pos;
                   RectangleOptions.width := Position.width pos;
                   RectangleOptions.height := Position.height pos;
                   RectangleOptions.color :=
                     Color.rgb (inject_Z (Rgb.r (hexToRgb c)) / 255)
                               (inject_Z (Rgb.g (hexToRgb c)) / 255)
                               (inject_Z (Rgb.b (hexToRgb c)) / 255);
                   RectangleOptions.opacity :=
                     if isPreview then 0.3 else 0.5 |}) h)
  /\ (forall c : string,
        Annotation.type annotation = underline ->
        Annotation.color annotation = Some c -> c <> EmptyString ->
        applyAnnotationToPage annotation (Some p) font isPreview h =
        call (DrawLine (index p)
                {| LineOptions.start :=
                     {| Point.x := Position.x pos; Point.y := Position.y pos |};
                   LineOptions.end_ :=
                     {| Point.x := (Position.x pos + Position.width pos)%float;
                        Point.y := Position.y pos |};
                   LineOptions.thickness := 2;
                   LineOptions.color :=
                     Color.rgb (inject_Z (Rgb.r (hexToRgb c)) / 255)
                               (inject_Z (Rgb.g (hexToRgb c)) / 255)
                               (inject_Z (Rgb.b (hexToRgb c)) / 255);
                   LineOptions.opacity := if isPreview then 0.7 else 1 |}) h).
Proof.
  cbv zeta. unfold applyAnnotationToPage, drawText. repeat split.
  - intros -> Henc. cbn [TextOptions.font]. rewrite Henc.
    destruct isPreview; reflexivity.
  - intros -> Henc. cbn [TextOptions.font]. now rewrite Henc.
  - intros c -> -> Hc. destruct c; [congruence | reflexivity].
  - intros c -> -> Hc. destruct c; [congruence | reflexivity].
Qed.

(** C10. A highlight or an underline whose colour is absent leaves the page
    as it was, whatever the page and the draft flag, and throws nothing. *)
Theorem applyAnnotationToPage_without_color (annotation : Annotation.t)
    (page : option PDFPage) (font : PDFFont.t) (isPreview : bool) (h : Heap.t) :
  Annotation.type annotation = highlight \/ Annotation.type annotation = underline ->
  Annotation.color annotation = None ->
  applyAnnotationToPage annotation page font isPreview h = (Ok tt, h).
Proof.
  intros [Ht | Ht] Hc; unfold applyAnnotationToPage; rewrite Ht, Hc; reflexivity.
Qed.

(** A signature whose payload fails to decode leaves no mark, and the
    failure goes to the console. *)
Lemma malformedSignature_skipped (annotation : Annotation.t) (p : PDFPage)
    (font : PDFFont.t) (isPreview : bool) :
  malformedSignature annotation = true ->
  marks annotation (Some p) font isPreview = []
  /\ exists error,
      notes annotation (Some p) font isPreview =
      [ConsoleError "Error embedding signature:" error].
Proof.
  unfold malformedSignature, marks, notes, callsOf, effectsOf, run,
    applyAnnotationToPage, payloadOk.
  destruct (Annotation.type annotation); try discriminate.
  destruct (Annotation.imageData annotation) as [d|]; [|discriminate].
  destruct (Js.truthy d); [|discriminate].
  unfold tryCatch, bind, decodeDataUri, embedPng, page_doc.
  destruct (atob _) as [binary|]; cbn.
  - destruct (isPng _); [discriminate|]. intros _. cbn. eauto.
  - intros _. eauto.
Qed.

Lemma malformedSignature_drawable (font : PDFFont.t) (annotation : Annotation.t) :
  malformedSignature annotation = true -> drawable font annotation = true.
Proof.
  unfold malformedSignature, drawable.
  destruct (Annotation.type annotation); try discriminate. reflexivity.
Qed.

Lemma flat_map_filter_skipped {A B} (f : A -> list B) (keep : A -> bool)
    (l : list A) :
  (forall a, keep a = false -> f a = []) ->
  flat_map f l = flat_map f (filter keep l).
Proof.
  intros Hskip. induction l as [|a l IH]; [reflexivity|].
  cbn [flat_map filter]. destruct (keep a) eqn:Hk; cbn [flat_map].
  - now rewrite IH.
  - now rewrite (Hskip a Hk), IH.
Qed.

End Compositor.

(** ** The render passes *)

Section Passes.

Context {lib : PdfLib}.

(** The first page of a document that has one. *)
Lemma first_page (pdfDoc : PDFDocument) :
  pageCount (parsed pdfDoc) <> 0%nat ->
  nth_error (getPages pdfDoc) 0 = Some {| doc := pdfDoc; index := 0 |}.
Proof.
  unfold getPages. destruct (pageCount (parsed pdfDoc)); [congruence | reflexivity].
Qed.

(** The compositor reads nothing of a page but its index. *)
Lemma applyAnnotationToPage_page_index (annotation : Annotation.t)
    (p q : PDFPage) (font : PDFFont.t) (isPreview : bool) :
  index p = index q ->
  applyAnnotationToPage annotation (Some p) font isPreview
  = applyAnnotationToPage annotation (Some q) font isPreview.
Proof.
  intros Hindex.
  unfold applyAnnotationToPage, drawText, drawRectangle, drawLine, drawImage,
    onPage, page_doc, embedPng, bind. rewrite Hindex. reflexivity.
Qed.

Lemma marks_page_index (annotation : Annotation.t)
    (p q : PDFPage) (font : PDFFont.t) (isPreview : bool) :
  index p = index q ->
  marks annotation (Some p) font isPreview = marks annotation (Some q) font isPreview.
Proof.
  intros Hindex. unfold marks.
  now rewrite (applyAnnotationToPage_page_index annotation p q font isPreview Hindex).
Qed.

(** What the preview pass does on a source document that decodes and has a
    page: it draws the committed annotations up to the first one that
    [page.drawText] refuses, then the draft if none was refused, and it
    shows the result if nothing was refused. *)
Lemma updatePdfPreview_run (now : Z) (s : EditorState) (file : File.t)
    (p : Parsed) :
  pdfFile s = Some file ->
  parse (File.arrayBuffer file) = Some p ->
  pageCount p <> 0%nat ->
  let page := Some {| doc := {| parsed := p; loadedAt := now |}; index := 0 |} in
  let font := {| PDFFont.name := Helvetica |} in
  let reached := drawnPrefix font (annotations s) in
  let uninterrupted := forallb (drawable font) (annotations s) in
  let drawn :=
    EmbedFont Helvetica
    :: flat_map (fun ann => marks ann page font false) reached
    ++ (if uninterrupted && previewing s
        then marks (previewAnnotation s) page font true else []) in
  run (updatePdfPreview now s) =
  (Ok tt,
   {| Heap.calls := drawn;
      Heap.effects :=
        flat_map (fun ann => notes ann page font false) reached
        ++ (if uninterrupted && previewing s
            then notes (previewAnnotation s) page font true else [])
        ++ [if uninterrupted
               && (negb (previewing s) || drawable font (previewAnnotation s))
            then SetPdfUrl (UrlOfBlob (serialize p now drawn) "application/pdf")
            else ConsoleError "Error updating PDF preview:" EncodingError] |}).
Proof.
  intros Hfile Hparse Hpages. cbv zeta.
  unfold run, updatePdfPreview. rewrite Hfile.
  unfold tryCatch, bind at 1, load. rewrite Hparse. cbn [ret].
  rewrite (first_page {| parsed := p; loadedAt := now |} Hpages).
  unfold bind at 1, embedFont, bind at 1, call, ret.
  cbn [Heap.calls Heap.effects Heap.empty].
  unfold bind at 1. rewrite forOf_applyAnnotationToPage.
  cbn [Heap.calls Heap.effects].
  destruct (forallb (drawable {| PDFFont.name := Helvetica |}) (annotations s));
    cbn [andb].
  - unfold bind at 1. destruct (previewing s); cbn [negb orb].
    + destruct (drawable {| PDFFont.name := Helvetica |} (previewAnnotation s))
        eqn:Hdraft.
      * rewrite (applyAnnotationToPage_on_page _ _ _ _ _ Hdraft).
        cbn [Heap.calls Heap.effects].
        unfold bind, save, effect. cbn [Heap.calls Heap.effects app parsed loadedAt].
        now rewrite <- !app_assoc.
      * rewrite (applyAnnotationToPage_refused _ _ _ _ _ Hdraft).
        destruct (refused_leaves_nothing (previewAnnotation s)
                    {| doc := {| parsed := p; loadedAt := now |}; index := 0 |}
                    {| PDFFont.name := Helvetica |} true Hdraft) as [-> ->].
        unfold effect. cbn [Heap.calls Heap.effects app].
        now rewrite !app_nil_r.
    + unfold ret, bind, save, effect.
      cbn [Heap.calls Heap.effects app parsed loadedAt].
      now rewrite !app_nil_r.
  - unfold effect. cbn [Heap.calls Heap.effects app]. now rewrite !app_nil_r.
Qed.

(** What the export pass does on a source document that decodes and has a
    page, once there is an annotation to export. *)
Lemma downloadPdf_run (now : Z) (s : EditorState) (file : File.t) (p : Parsed) :
  pdfFile s = Some file ->
  parse (File.arrayBuffer file) = Some p ->
  pageCount p <> 0%nat ->
  downloadRef_current s = true ->
  let page := Some {| doc := {| parsed := p; loadedAt := now |}; index := 0 |} in
  let font := {| PDFFont.name := Helvetica |} in
  let reached := drawnPrefix font (annotations s) in
  let drawn :=
    EmbedFont Helvetica
    :: flat_map (fun ann => marks ann page font false) reached in
  let url := UrlOfBlob (serialize p now drawn) "application/pdf" in
  run (downloadPdf now s) =
  (if forallb (drawable font) (annotations s) then Ok tt else Throw EncodingError,
   {| Heap.calls := drawn;
      Heap.effects :=
        flat_map (fun ann => notes ann page font false) reached
        ++ (if forallb (drawable font) (annotations s)
            then [AnchorClick url "annotated-document.pdf"; RevokeObjectURL url]
            else []) |}).
Proof.
  intros Hfile Hparse Hpages Href. cbv zeta.
  unfold run, downloadPdf. rewrite Hfile, Href. cbn [negb].
  unfold bind at 1, load. rewrite Hparse. cbn [ret].
  rewrite (first_page {| parsed := p; loadedAt := now |} Hpages).
  unfold bind at 1, embedFont, bind at 1, call, ret.
  cbn [Heap.calls Heap.effects Heap.empty].
  unfold bind at 1. rewrite forOf_applyAnnotationToPage.
  cbn [Heap.calls Heap.effects].
  destruct (forallb (drawable {| PDFFont.name := Helvetica |}) (annotations s)).
  - unfold bind, save, effect. cbn [Heap.calls Heap.effects app parsed loadedAt].
    now rewrite <- !app_assoc.
  - cbn [app]. now rewrite !app_nil_r.
Qed.

(** React's commit of a pass keeps every cell but [pdfUrl]. *)
Lemma commit_frame (effects : list Effect) (s : EditorState) :
  exists url, commit effects s = setPdfUrl url s.
Proof.
  revert s. induction effects as [|e effects IH]; intros s.
  - exists (pdfUrl s). now destruct s.
  - destruct e; cbn [commit]; try apply IH.
    destruct (IH (setPdfUrl (Some url) s)) as [u Hu]. exists u. now rewrite Hu.
Qed.

Lemma commit_app (e1 e2 : list Effect) (s : EditorState) :
  commit (e1 ++ e2) s = commit e2 (commit e1 s).
Proof.
  revert s. induction e1 as [|e e1 IH]; intros s; [reflexivity|].
  destruct e; cbn [commit app]; apply IH.
Qed.

(** A pass that queues no [setPdfUrl] leaves the state as it was. *)
Lemma commit_no_update (effects : list Effect) (s : EditorState) :
  (forall url, ~ In (SetPdfUrl url) effects) -> commit effects s = s.
Proof.
  induction effects as [|e effects IH]; intros Hno; [reflexivity|].
  destruct e; cbn [commit];
    try (apply IH; intros u Hu; apply (Hno u); now right).
  exfalso. apply (Hno url). now left.
Qed.

(** The compositor never queues a state update. *)
Lemma notes_no_update (annotation : Annotation.t) (page : option PDFPage)
    (font : PDFFont.t) (isPreview : bool) (url : ObjectURL) :
  ~ In (SetPdfUrl url) (notes annotation page font isPreview).
Proof.
  unfold notes, effectsOf, run, applyAnnotationToPage,
    drawText, drawRectangle, drawLine, drawImage.
  destruct (Annotation.type annotation).
  - destruct page; [destruct (encodes _ _)|]; cbn; tauto.
  - destruct (Annotation.color annotation) as [c|]; [destruct (Js.truthy c)|];
      destruct page; cbn; tauto.
  - destruct (Annotation.color annotation) as [c|]; [destruct (Js.truthy c)|];
      destruct page; cbn; tauto.
  - destruct page; [destruct (encodes _ _)|]; cbn; tauto.
  - destruct (Annotation.imageData annotation) as [d|]; [destruct (Js.truthy d)|];
      try (cbn; tauto).
    unfold tryCatch, bind, decodeDataUri, embedPng, page_doc, onPage.
    destruct (atob _) as [binary|]; [|cbn; intuition discriminate].
    destruct page; [|cbn; intuition discriminate].
    cbn. destruct (isPng _); cbn; intuition discriminate.
Qed.

Lemma flat_map_notes_no_update (l : list Annotation.t) (page : option PDFPage)
    (font : PDFFont.t) (isPreview : bool) (url : ObjectURL) :
  ~ In (SetPdfUrl url) (flat_map (fun ann => notes ann page font isPreview) l).
Proof.
  rewrite in_flat_map. intros [a [_ Ha]]. exact (notes_no_update _ _ _ _ _ Ha).
Qed.

(** The state after a preview pass on a source document that decodes and
    has a page: [pdfUrl] is the saved document when nothing was refused,
    and every cell is as before otherwise. *)
Lemma afterPreview_run (now : Z) (s : EditorState) (file : File.t) (p : Parsed) :
  pdfFile s = Some file ->
  parse (File.arrayBuffer file) = Some p ->
  pageCount p <> 0%nat ->
  afterPreview now s =
  if forallb (drawable {| PDFFont.name := Helvetica |}) (annotations s)
     && (negb (previewing s)
         || drawable {| PDFFont.name := Helvetica |} (previewAnnotation s))
  then setPdfUrl
         (Some (UrlOfBlob (serialize p now (callsOf (updatePdfPreview now s)))
                          "application/pdf")) s
  else s.
Proof.
  intros Hfile Hparse Hpages.
  unfold afterPreview, effectsOf, callsOf.
  rewrite (updatePdfPreview_run now s file p Hfile Hparse Hpages).
  cbn [snd Heap.effects Heap.calls].
  rewrite !commit_app.
  rewrite (commit_no_update (flat_map _ _)) by (intros u; apply flat_map_notes_no_update).
  assert (Hdraft : forall b : bool,
    commit (if b then notes (previewAnnotation s)
                       (Some {| doc := {| parsed := p; loadedAt := now |}; index := 0 |})
                       {| PDFFont.name := Helvetica |} true else []) s = s).
  { intros [|]; [|reflexivity].
    apply commit_no_update. intros u. apply notes_no_update. }
  rewrite Hdraft.
  destruct (forallb _ (annotations s)
            && (negb (previewing s) || drawable _ (previewAnnotation s)));
    [reflexivity | now destruct s].
Qed.

(** C3. In a preview pass over a source document that decodes and has a
    page, the document first receives the marks of the committed
    annotations, in the order of the store and drawn with the draft flag
    off; the draft, when preview mode is on and the draft has content or is
    a signature, is composited after all of them with the draft flag on;
    the bytes shown are the document saved in that state.  The pass stops
    at the first text that [page.drawText] cannot encode: the annotations
    before it are the only ones drawn, still in the order of the store, the
    draft is not drawn and nothing is shown.  The export pass composites
    the committed annotations alone, in the same order. *)
Theorem updatePdfPreview_committed_in_order_then_draft
    (now : Z) (s : EditorState) (file : File.t) (p : Parsed) :
  pdfFile s = Some file ->
  parse (File.arrayBuffer file) = Some p ->
  pageCount p <> 0%nat ->
  let page := Some {| doc := {| parsed := p; loadedAt := now |}; index := 0 |} in
  let font := {| PDFFont.name := Helvetica |} in
  let uninterrupted := forallb (drawable font) (annotations s) in
  let committed :=
    flat_map (fun ann => marks ann page font false)
             (drawnPrefix font (annotations s)) in
  let draft :=
    if uninterrupted && previewing s
    then marks (previewAnnotation s) page font true else [] in
  settled (updatePdfPreview now s) = Ok tt
  /\ callsOf (updatePdfPreview now s) = EmbedFont Helvetica :: committed ++ draft
  /\ (uninterrupted = true -> drawnPrefix font (annotations s) = annotations s)
  /\ (uninterrupted = true ->
      (previewing s = true -> drawable font (previewAnnotation s) = true) ->
      pdfUrl (afterPreview now s) =
      Some (UrlOfBlob (serialize p now (EmbedFont Helvetica :: committed ++ draft))
                      "application/pdf"))
  /\ (uninterrupted = false
      \/ (previewing s = true /\ drawable font (previewAnnotation s) = false) ->
      afterPreview now s = s)
  /\ (downloadRef_current s = true ->
      callsOf (downloadPdf now s) = EmbedFont Helvetica :: committed).
Proof.
  intros Hfile Hparse Hpages. cbv zeta.
  pose proof (updatePdfPreview_run now s file p Hfile Hparse Hpages) as Hrun.
  pose proof (afterPreview_run now s file p Hfile Hparse Hpages) as Hafter.
  cbv zeta in Hrun.
  split; [|split; [|split; [|split; [|split]]]].
  - unfold settled. now rewrite Hrun.
  - unfold callsOf. now rewrite Hrun.
  - apply drawnPrefix_all.
  - intros Hall Hdraft. rewrite Hafter, Hall. cbn [andb].
    destruct (previewing s); cbn [negb orb].
    + rewrite (Hdraft eq_refl). cbn [pdfUrl setPdfUrl].
      unfold callsOf. rewrite Hrun. cbn [snd Heap.calls].
      now rewrite Hall.
    + cbn [pdfUrl setPdfUrl]. unfold callsOf. rewrite Hrun. cbn [snd Heap.calls].
      now rewrite Hall.
  - intros [Hstop | [Hprev Hdraft]]; rewrite Hafter.
    + now rewrite Hstop.
    + rewrite Hprev, Hdraft. cbn [negb orb]. now rewrite andb_false_r.
  - intros Href. unfold callsOf.
    now rewrite (downloadPdf_run now s file p Hfile Hparse Hpages Href).
Qed.

(** Taking the malformed signatures out of a store changes neither how far
    the loop gets nor the marks it leaves. *)
Lemma wellFormedOnly_same_marks (p : PDFPage) (font : PDFFont.t)
    (isPreview : bool) (l : list Annotation.t) :
  forallb (drawable font) (wellFormedOnly l) = forallb (drawable font) l
  /\ flat_map (fun ann => marks ann (Some p) font isPreview)
              (drawnPrefix font (wellFormedOnly l))
     = flat_map (fun ann => marks ann (Some p) font isPreview)
                (drawnPrefix font l).
Proof.
  induction l as [|a l [IHall IHmarks]]; [split; reflexivity|].
  unfold wellFormedOnly in *. cbn [filter].
  destruct (malformedSignature a) eqn:Hbad; cbn [negb].
  - pose proof (malformedSignature_drawable font a Hbad) as Hok.
    destruct (malformedSignature_skipped a p font isPreview Hbad) as [Hnone _].
    cbn [forallb drawnPrefix]. rewrite Hok. cbn [andb flat_map].
    rewrite Hnone. cbn [app]. now split.
  - cbn [forallb drawnPrefix]. destruct (drawable font a); cbn [andb flat_map].
    + rewrite IHall, IHmarks. now split.
    + now split.
Qed.

(** C4. A signature whose payload fails to decode does not stop a pass and
    leaves no mark.  Over a source document that decodes and has a page, a
    preview pass issues the calls, settles and shows the bytes that it
    would with the malformed signatures taken out of the store.  When
    [page.drawText] refuses no text of the store or of the draft, the
    promise resolves, the bytes shown are the document with the marks of
    all the other annotations in store order, and each failure is written
    to the console; the same holds for the export pass. *)
Theorem malformed_signature_does_not_abort_render
    (now : Z) (s : EditorState) (file : File.t) (p : Parsed) :
  pdfFile s = Some file ->
  parse (File.arrayBuffer file) = Some p ->
  pageCount p <> 0%nat ->
  let page := Some {| doc := {| parsed := p; loadedAt := now |}; index := 0 |} in
  let font := {| PDFFont.name := Helvetica |} in
  let without := setAnnotations wellFormedOnly s in
  let others :=
    flat_map (fun ann => marks ann page font false)
             (wellFormedOnly (annotations s)) in
  let draft :=
    if previewing s then marks (previewAnnotation s) page font true else [] in
  (settled (updatePdfPreview now s) = settled (updatePdfPreview now without)
   /\ callsOf (updatePdfPreview now s) = callsOf (updatePdfPreview now without)
   /\ pdfUrl (afterPreview now s) = pdfUrl (afterPreview now without))
  /\ (forallb (drawable font) (annotations s) = true ->
      (previewing s = true -> drawable font (previewAnnotation s) = true) ->
      settled (updatePdfPreview now s) = Ok tt
      /\ pdfUrl (afterPreview now s) =
         Some (UrlOfBlob (serialize p now (EmbedFont Helvetica :: others ++ draft))
                         "application/pdf")
      /\ (forall ann, In ann (annotations s) -> malformedSignature ann = true ->
          marks ann page font false = []
          /\ exists error,
              In (ConsoleError "Error embedding signature:" error)
                 (effectsOf (updatePdfPreview now s)))
      /\ (downloadRef_current s = true ->
          settled (downloadPdf now s) = Ok tt
          /\ callsOf (downloadPdf now s) = EmbedFont Helvetica :: others)).
Proof.
  intros Hfile Hparse Hpages. cbv zeta.
  set (page0 := {| doc := {| parsed := p; loadedAt := now |}; index := 0 |}).
  set (font0 := {| PDFFont.name := Helvetica |}).
  pose proof (updatePdfPreview_run now s file p Hfile Hparse Hpages) as Hrun.
  pose proof (updatePdfPreview_run now (setAnnotations wellFormedOnly s) file p
                Hfile Hparse Hpages) as Hrun'.
  pose proof (afterPreview_run now s file p Hfile Hparse Hpages) as Hafter.
  pose proof (afterPreview_run now (setAnnotations wellFormedOnly s) file p
                Hfile Hparse Hpages) as Hafter'.
  cbv zeta in Hrun, Hrun'.
  change (annotations (setAnnotations wellFormedOnly s))
    with (wellFormedOnly (annotations s)) in Hrun', Hafter'.
  change (previewing (setAnnotations wellFormedOnly s))
    with (previewing s) in Hrun', Hafter'.
  change (previewAnnotation (setAnnotations wellFormedOnly s))
    with (previewAnnotation s) in Hrun', Hafter'.
  fold page0 font0 in Hrun, Hrun', Hafter, Hafter'.
  destruct (wellFormedOnly_same_marks page0 font0 false (annotations s))
    as [Hall Hmarks].
  rewrite Hall, Hmarks in Hrun'. rewrite Hall in Hafter'.
  assert (Hcalls : callsOf (updatePdfPreview now s)
                   = callsOf (updatePdfPreview now (setAnnotations wellFormedOnly s))).
  { unfold callsOf. now rewrite Hrun, Hrun'. }
  split; [split; [|split]|].
  - unfold settled. now rewrite Hrun, Hrun'.
  - exact Hcalls.
  - rewrite Hafter, Hafter', <- Hcalls.
    now destruct (forallb (drawable font0) (annotations s)
                  && (negb (previewing s) || drawable font0 (previewAnnotation s))).
  - intros Hdrawable Hdraft.
    assert (Hdone : negb (previewing s) || drawable font0 (previewAnnotation s) = true).
    { destruct (previewing s); [now rewrite Hdraft | reflexivity]. }
    assert (Hskip :
      flat_map (fun ann => marks ann (Some page0) font0 false) (annotations s)
      = flat_map (fun ann => marks ann (Some page0) font0 false)
                 (wellFormedOnly (annotations s))).
    { apply flat_map_filter_skipped. intros a Ha.
      apply negb_false_iff in Ha. now apply malformedSignature_skipped. }
    rewrite Hdrawable in Hrun, Hafter. rewrite Hdone in Hrun, Hafter.
    rewrite (drawnPrefix_all font0 _ Hdrawable) in Hrun.
    cbn [andb] in Hrun, Hafter.
    split; [|split; [|split]].
    + unfold settled. now rewrite Hrun.
    + rewrite Hafter. cbn [pdfUrl setPdfUrl]. unfold callsOf. rewrite Hrun.
      cbn [snd Heap.calls]. now rewrite Hskip.
    + intros ann Hin Hbad.
      destruct (malformedSignature_skipped ann page0 font0 false Hbad)
        as [Hmarks0 [error Herr]].
      split; [exact Hmarks0|].
      exists error. unfold effectsOf. rewrite Hrun. cbn [snd Heap.effects].
      apply in_or_app. left. apply in_flat_map. exists ann. split; [assumption|].
      rewrite Herr. now left.
    + intros Href.
      pose proof (downloadPdf_run now s file p Hfile Hparse Hpages Href) as Hdl.
      cbv zeta in Hdl. fold page0 font0 in Hdl.
      rewrite Hdrawable, (drawnPrefix_all font0 _ Hdrawable) in Hdl.
      unfold settled, callsOf. rewrite Hdl.
      cbn [fst snd Heap.calls]. now rewrite Hskip.
Qed.

(** C1 (as the code has it). With no draft on show, two render passes over
    the same source and the same committed annotations issue the same
    calls: over a source document that decodes and has a page, with no text
    that [page.drawText] refuses, each embeds the font and draws the
    committed annotations in store order, and hands out the document saved
    in that state.  The saved bytes carry the time of the load: two passes
    that load at the same time run alike, effect for effect and byte for
    byte, whatever the other cells of the component hold. *)
Theorem render_twice_same_calls_and_bytes_at_same_load_time
    (t1 t2 : Z) (s1 s2 : EditorState) (file : File.t) (p : Parsed) :
  pdfFile s1 = Some file ->
  pdfFile s2 = Some file ->
  annotations s1 = annotations s2 ->
  previewing s1 = false ->
  previewing s2 = false ->
  parse (File.arrayBuffer file) = Some p ->
  pageCount p <> 0%nat ->
  forallb (drawable {| PDFFont.name := Helvetica |}) (annotations s1) = true ->
  let page := Some {| doc := {| parsed := p; loadedAt := t1 |}; index := 0 |} in
  let font := {| PDFFont.name := Helvetica |} in
  let drawn :=
    EmbedFont Helvetica
    :: flat_map (fun ann => marks ann page font false) (annotations s1) in
  callsOf (updatePdfPreview t1 s1) = drawn
  /\ callsOf (updatePdfPreview t2 s2) = drawn
  /\ pdfUrl (afterPreview t1 s1)
     = Some (UrlOfBlob (serialize p t1 drawn) "application/pdf")
  /\ pdfUrl (afterPreview t2 s2)
     = Some (UrlOfBlob (serialize p t2 drawn) "application/pdf")
  /\ (downloadRef_current s1 = true ->
      callsOf (downloadPdf t1 s1) = drawn
      /\ callsOf (downloadPdf t2 s2) = drawn
      /\ In (AnchorClick (UrlOfBlob (serialize p t1 drawn) "application/pdf")
                         "annotated-document.pdf")
            (effectsOf (downloadPdf t1 s1))
      /\ In (AnchorClick (UrlOfBlob (serialize p t2 drawn) "application/pdf")
                         "annotated-document.pdf")
            (effectsOf (downloadPdf t2 s2)))
  /\ (t1 = t2 ->
      run (updatePdfPreview t1 s1) = run (updatePdfPreview t2 s2)
      /\ run (downloadPdf t1 s1) = run (downloadPdf t2 s2)).
Proof.
  intros Hfile1 Hfile2 Hanns Hprev1 Hprev2 Hparse Hpages Hdrawable. cbv zeta.
  set (font0 := {| PDFFont.name := Helvetica |}) in *.
  pose proof (updatePdfPreview_run t1 s1 file p Hfile1 Hparse Hpages) as Hrun1.
  pose proof (updatePdfPreview_run t2 s2 file p Hfile2 Hparse Hpages) as Hrun2.
  pose proof (afterPreview_run t1 s1 file p Hfile1 Hparse Hpages) as Hafter1.
  pose proof (afterPreview_run t2 s2 file p Hfile2 Hparse Hpages) as Hafter2.
  cbv zeta in Hrun1, Hrun2. fold font0 in Hrun1, Hrun2, Hafter1, Hafter2.
  rewrite <- Hanns in Hrun2, Hafter2.
  rewrite Hprev1, Hdrawable, (drawnPrefix_all font0 _ Hdrawable) in Hrun1.
  rewrite Hprev2, Hdrawable, (drawnPrefix_all font0 _ Hdrawable) in Hrun2.
  rewrite Hprev1, Hdrawable in Hafter1. rewrite Hprev2, Hdrawable in Hafter2.
  cbn [andb negb orb] in Hrun1, Hrun2, Hafter1, Hafter2.
  rewrite app_nil_r in Hrun1, Hrun2.
  assert (Hsame :
    flat_map (fun ann => marks ann
                (Some {| doc := {| parsed := p; loadedAt := t2 |}; index := 0 |})
                font0 false) (annotations s1)
    = flat_map (fun ann => marks ann
                  (Some {| doc := {| parsed := p; loadedAt := t1 |}; index := 0 |})
                  font0 false) (annotations s1)).
  { apply flat_map_ext. intros a. now apply marks_page_index. }
  rewrite Hsame in Hrun2.
  assert (Hcalls1 : callsOf (updatePdfPreview t1 s1) =
    EmbedFont Helvetica
    :: flat_map (fun ann => marks ann
                   (Some {| doc := {| parsed := p; loadedAt := t1 |}; index := 0 |})
                   font0 false) (annotations s1)).
  { unfold callsOf. now rewrite Hrun1. }
  assert (Hcalls2 : callsOf (updatePdfPreview t2 s2) =
    EmbedFont Helvetica
    :: flat_map (fun ann => marks ann
                   (Some {| doc := {| parsed := p; loadedAt := t1 |}; index := 0 |})
                   font0 false) (annotations s1)).
  { unfold callsOf. now rewrite Hrun2. }
  split; [exact Hcalls1|]. split; [exact Hcalls2|].
  split; [rewrite Hafter1, Hcalls1; reflexivity|].
  split; [rewrite Hafter2, Hcalls2; reflexivity|].
  split.
  - intros Href1.
    assert (Href2 : downloadRef_current s2 = true).
    { unfold downloadRef_current in *. now rewrite <- Hanns. }
    pose proof (downloadPdf_run t1 s1 file p Hfile1 Hparse Hpages Href1) as Hdl1.
    pose proof (downloadPdf_run t2 s2 file p Hfile2 Hparse Hpages Href2) as Hdl2.
    cbv zeta in Hdl1, Hdl2. fold font0 in Hdl1, Hdl2.
    rewrite <- Hanns in Hdl2.
    rewrite Hdrawable, (drawnPrefix_all font0 _ Hdrawable) in Hdl1, Hdl2.
    rewrite Hsame in Hdl2.
    unfold callsOf, effectsOf. rewrite Hdl1, Hdl2.
    cbn [snd Heap.calls Heap.effects].
    repeat split; try (apply in_or_app; right; now left).
  - intros <-. unfold run, updatePdfPreview, downloadPdf, downloadRef_current.
    rewrite Hfile1, Hfile2, <- Hanns, Hprev1, Hprev2. split; reflexivity.
Qed.

(** C6. A render pass writes no cell of the component but [pdfUrl]: after
    the preview pass, with or without a draft on show, and after the export
    pass, the committed annotations are the ones before it, and so are the
    cells that hold the draft. *)
Theorem render_leaves_annotations_and_draft (now : Z) (s : EditorState) :
  (exists url, afterPreview now s = setPdfUrl url s)
  /\ (exists url, afterDownload now s = setPdfUrl url s)
  /\ annotations (afterPreview now s) = annotations s
  /\ annotations (afterDownload now s) = annotations s
  /\ previewMode (afterPreview now s) = previewMode s
  /\ editingId (afterPreview now s) = editingId s
  /\ content (afterPreview now s) = content s
  /\ signatureData (afterPreview now s) = signatureData s.
Proof.
  destruct (commit_frame (effectsOf (updatePdfPreview now s)) s) as [u Hu].
  destruct (commit_frame (effectsOf (downloadPdf now s)) s) as [v Hv].
  unfold afterPreview, afterDownload. rewrite Hu, Hv.
  repeat split; eauto.
Qed.

(** C7 (as the code has it). When the source document fails to decode, no
    pass hands out bytes and no pass changes the state of the component, so
    the committed annotations and the document shown before stay as they
    were.  The export pass lets the error reach its caller: its promise
    rejects.  The preview pass catches the error, writes it to the console
    and resolves. *)
Theorem decode_failure_leaves_state_and_output
    (now : Z) (s : EditorState) (file : File.t) :
  pdfFile s = Some file ->
  parse (File.arrayBuffer file) = None ->
  run (updatePdfPreview now s) =
    (Ok tt,
     {| Heap.calls := [];
        Heap.effects := [ConsoleError "Error updating PDF preview:" DecodeError] |})
  /\ afterPreview now s = s
  /\ (downloadRef_current s = true ->
      run (downloadPdf now s) = (Throw DecodeError, Heap.empty))
  /\ afterDownload now s = s.
Proof.
  intros Hfile Hparse.
  assert (Hprev : run (updatePdfPreview now s) =
    (Ok tt,
     {| Heap.calls := [];
        Heap.effects := [ConsoleError "Error updating PDF preview:" DecodeError] |})).
  { unfold run, updatePdfPreview. rewrite Hfile.
    unfold tryCatch, bind at 1, load. rewrite Hparse. reflexivity. }
  split; [exact Hprev|]. split; [|split].
  - unfold afterPreview, effectsOf. rewrite Hprev. now destruct s.
  - intros Href. unfold run, downloadPdf. rewrite Hfile, Href. cbn [negb].
    unfold bind at 1, load. rewrite Hparse. reflexivity.
  - unfold afterDownload, effectsOf, run, downloadPdf. rewrite Hfile.
    destruct (downloadRef_current s); cbn [negb]; [|reflexivity].
    unfold bind at 1, load. rewrite Hparse. reflexivity.
Qed.

End Passes.

(** ** The committed annotations *)

(** C2 (as the code has it). [saveAnnotation] returns at once, with no cell
    written and no render started, when the content is empty and the tool
    is not the signature tool, or when no source file is loaded.  A
    signature draft with no image data is not stopped by [saveAnnotation]:
    it is the Save button, disabled for such a draft, that keeps a click
    from reaching it, so a click leaves every cell as it was. *)
Theorem saveAnnotation_refuses_and_save_button_gates
    (now : Z) (s : EditorState) :
  ((content s = EmptyString /\ activeTool s <> signature) \/ pdfFile s = None ->
   saveAnnotation now s = unchanged s)
  /\ (activeTool s = signature -> Js.truthyOpt (signatureData s) = false ->
      clickSave now s = unchanged s)
  /\ (activeTool s = signature -> pdfFile s <> None -> saveRefused s = false).
Proof.
  split; [|split].
  - intros Hwhy. unfold saveAnnotation.
    replace (saveRefused s) with true; [reflexivity|].
    symmetry. unfold saveRefused. destruct Hwhy as [[Hc Ht] | Hf].
    + rewrite Hc. destruct (activeTool s); cbn; congruence.
    + rewrite Hf. apply orb_true_r.
  - intros Ht Hd. unfold clickSave, saveButton.
    destruct (pdfUrl s); [|reflexivity].
    destruct (previewMode s); [|reflexivity].
    cbn [disabled]. rewrite Ht, Hd. reflexivity.
  - intros Ht Hf. unfold saveRefused. rewrite Ht.
    destruct (pdfFile s); [|congruence].
    cbn [AnnotationType_eqb negb]. now rewrite andb_false_r.
Qed.

(** The annotation built by [saveAnnotation] obeys the rule on [color]. *)
Lemma newAnnotation_colorRule (now : Z) (s : EditorState) :
  colorRule (newAnnotation now s).
Proof.
  unfold colorRule, newAnnotation. cbn.
  destruct (activeTool s); cbn; split; intros H;
    first [congruence | destruct H; congruence | tauto].
Qed.

Lemma moveTo_colorRule (x y : float) (ann : Annotation.t) :
  colorRule ann -> colorRule (moveTo x y ann).
Proof. intros H. exact H. Qed.

(** Every handler that writes the committed annotations keeps the rule on
    [color] in force on all of them. *)
Lemma committed_colorRule (now : Z) (clientX clientY : float) (id : string)
    (file : File.t) (s : EditorState) :
  Forall colorRule (annotations s) ->
  Forall colorRule (annotations (next (saveAnnotation now s)))
  /\ Forall colorRule (annotations (next (clickSave now s)))
  /\ Forall colorRule (annotations (next (handleDrag clientX clientY s)))
  /\ Forall colorRule (annotations (next (deleteAnnotation id s)))
  /\ Forall colorRule (annotations (next (handlePdfUpload file s))).
Proof.
  intros Hall.
  assert (Hsave : Forall colorRule (annotations (next (saveAnnotation now s)))).
  { unfold saveAnnotation. destruct (saveRefused s); [exact Hall|].
    cbn. destruct (Js.truthyOpt (editingId s)).
    - apply Forall_map. eapply Forall_impl; [|exact Hall].
      intros a Ha. destruct (isEditing s (Annotation.id a));
        [apply newAnnotation_colorRule | exact Ha].
    - apply Forall_app. split; [exact Hall|].
      constructor; [apply newAnnotation_colorRule | constructor]. }
  repeat split.
  - exact Hsave.
  - unfold clickSave. destruct (saveButton s) as [b|]; [|exact Hall].
    destruct (disabled b); [exact Hall | exact Hsave].
  - unfold handleDrag. destruct (draggingId s) as [d|]; [|exact Hall].
    destruct (Js.truthy d); [|exact Hall].
    cbn. apply Forall_map. eapply Forall_impl; [|exact Hall].
    intros a Ha. destruct (String.eqb (Annotation.id a) d);
      [now apply moveTo_colorRule | exact Ha].
  - unfold deleteAnnotation. destruct (isEditing s id); cbn;
      apply Forall_forall; intros a Ha; apply filter_In in Ha;
      destruct Ha as [Ha _]; revert a Ha; now apply Forall_forall.
  - cbn. constructor.
Qed.

(** ** Runs on the test double *)

(** C1, as stated, fails: rendered one second apart from the same source
    and the same committed annotations, with no draft, the documents shown
    differ in their bytes, by the date of the load. *)
Lemma render_one_second_apart_differs_in_bytes :
  pdfUrl (afterPreview (lib := Double.lib) 1700000000000 oneHighlight)
  = Some (UrlOfBlob (list_byte_of_string "%PDF-1.7FR1700000000") "application/pdf")
  /\ pdfUrl (afterPreview (lib := Double.lib) 1700000001000 oneHighlight)
     = Some (UrlOfBlob (list_byte_of_string "%PDF-1.7FR1700000001") "application/pdf")
  /\ pdfUrl (afterPreview (lib := Double.lib) 1700000000000 oneHighlight)
     <> pdfUrl (afterPreview (lib := Double.lib) 1700000001000 oneHighlight).
Proof.
  repeat split. vm_compute. discriminate.
Qed.

(** Rendering again after a render, with nothing on show as a draft. *)
Lemma render_twice_same_calls_and_bytes_at_same_load_time_witness :
  callsOf (updatePdfPreview (lib := Double.lib) 1700000000000 oneHighlight)
  = callsOf (updatePdfPreview (lib := Double.lib) 1700000001000
               (afterPreview (lib := Double.lib) 1700000000000 oneHighlight))
  /\ run (updatePdfPreview (lib := Double.lib) 1700000000000 oneHighlight)
     = run (updatePdfPreview (lib := Double.lib) 1700000000000
              (afterPreview (lib := Double.lib) 1700000000000 oneHighlight)).
Proof.
  split.
  - destruct (render_twice_same_calls_and_bytes_at_same_load_time
                (lib := Double.lib) 1700000000000 1700000001000 oneHighlight
                (afterPreview (lib := Double.lib) 1700000000000 oneHighlight)
                Double.goodFile (File.arrayBuffer Double.goodFile)
                eq_refl eq_refl eq_refl eq_refl eq_refl eq_refl)
      as (Hfirst & Hsecond & _); [discriminate | reflexivity |].
    now rewrite Hfirst, Hsecond.
  - destruct (render_twice_same_calls_and_bytes_at_same_load_time
                (lib := Double.lib) 1700000000000 1700000000000 oneHighlight
                (afterPreview (lib := Double.lib) 1700000000000 oneHighlight)
                Double.goodFile (File.arrayBuffer Double.goodFile)
                eq_refl eq_refl eq_refl eq_refl eq_refl eq_refl)
      as (_ & _ & _ & _ & _ & Hsame); [discriminate | reflexivity |].
    exact (proj1 (Hsame eq_refl)).
Defined.

(** C2, as stated, fails: with the signature tool selected, nothing drawn
    and a document loaded, [saveAnnotation] appends an annotation. *)
Lemma saveAnnotation_commits_signature_without_image :
  activeTool emptySignatureDraft = signature
  /\ signatureData emptySignatureDraft = None
  /\ annotations (next (saveAnnotation 1700000000002 emptySignatureDraft))
     = [yellowHighlight;
        {| Annotation.id := "1700000000002";
           Annotation.type := signature;
           Annotation.content := "Signature";
           Annotation.position := position emptySignatureDraft;
           Annotation.color := None;
           Annotation.imageData := None |}]
  /\ annotations (next (saveAnnotation 1700000000002 emptySignatureDraft))
     <> annotations emptySignatureDraft.
Proof.
  repeat split. vm_compute. discriminate.
Qed.

Lemma saveAnnotation_refuses_and_save_button_gates_witness :
  saveAnnotation 1700000000002 oneHighlight = unchanged oneHighlight
  /\ clickSave 1700000000002 emptySignatureDraft = unchanged emptySignatureDraft
  /\ saveRefused emptySignatureDraft = false.
Proof.
  destruct (saveAnnotation_refuses_and_save_button_gates
              1700000000002 oneHighlight) as (Hrefuse & _ & _).
  destruct (saveAnnotation_refuses_and_save_button_gates
              1700000000002 emptySignatureDraft) as (_ & Hgate & Hopen).
  split; [|split].
  - apply Hrefuse. left. split; [reflexivity | discriminate].
  - apply Hgate; reflexivity.
  - apply Hopen; [reflexivity | discriminate].
Defined.

Lemma updatePdfPreview_committed_in_order_then_draft_witness :
  callsOf (updatePdfPreview (lib := Double.lib) 1700000000000 highlightAndDraft) =
  [EmbedFont Helvetica;
   DrawRectangle 0
     {| RectangleOptions.x := 50%float; RectangleOptions.y := 50%float;
        RectangleOptions.width := 100%float; RectangleOptions.height := 20%float;
        RectangleOptions.color :=
          Color.rgb (inject_Z 255 / 255) (inject_Z 255 / 255) (inject_Z 0 / 255);
        RectangleOptions.opacity := 0.5 |};
   DrawText 0 "Hi"
     {| TextOptions.x := 10%float; TextOptions.y := 10%float;
        TextOptions.size := 12;
        TextOptions.font := {| PDFFont.name := Helvetica |};
        TextOptions.color := Color.rgb 0 0 0.5 |}]
  /\ afterPreview (lib := Double.lib) 1700000000000 unencodableThenHighlight
     = unencodableThenHighlight.
Proof.
  destruct (updatePdfPreview_committed_in_order_then_draft (lib := Double.lib)
              1700000000000 highlightAndDraft Double.goodFile
              (File.arrayBuffer Double.goodFile) eq_refl eq_refl)
    as (_ & Hcalls & _); [discriminate|].
  destruct (updatePdfPreview_committed_in_order_then_draft (lib := Double.lib)
              1700000000000 unencodableThenHighlight Double.goodFile
              (File.arrayBuffer Double.goodFile) eq_refl eq_refl)
    as (_ & _ & _ & _ & Hstop & _); [discriminate|].
  split.
  - rewrite Hcalls. reflexivity.
  - apply Hstop. left. reflexivity.
Defined.

Lemma malformed_signature_does_not_abort_render_witness :
  malformedSignature (lib := Double.lib) corruptedSignature = true
  /\ settled (updatePdfPreview (lib := Double.lib) 1700000000000
                highlightAndCorruptedSignature)
     = Ok tt
  /\ pdfUrl (afterPreview (lib := Double.lib) 1700000000000
               highlightAndCorruptedSignature)
     = Some (UrlOfBlob (list_byte_of_string "%PDF-1.7FR1700000000")
                       "application/pdf").
Proof.
  destruct (malformed_signature_does_not_abort_render (lib := Double.lib)
              1700000000000 highlightAndCorruptedSignature Double.goodFile
              (File.arrayBuffer Double.goodFile) eq_refl eq_refl)
    as (_ & Hdrawn); [discriminate|].
  destruct (Hdrawn eq_refl) as (Hok & Hurl & _); [discriminate|].
  split; [reflexivity|]. split; [exact Hok|]. rewrite Hurl. reflexivity.
Defined.

(** C7, as stated, fails: the preview pass does not let a decoding error
    reach its caller, its promise resolves. *)
Lemma updatePdfPreview_swallows_decode_error :
  pdfFile undecodable = Some Double.badFile
  /\ parse (PdfLib := Double.lib) (File.arrayBuffer Double.badFile) = None
  /\ settled (updatePdfPreview (lib := Double.lib) 1700000000000 undecodable)
     = Ok tt
  /\ ~ (exists error,
          settled (updatePdfPreview (lib := Double.lib) 1700000000000 undecodable)
          = Throw error).
Proof.
  repeat split. intros [error H]. vm_compute in H. discriminate.
Qed.

Lemma decode_failure_leaves_state_and_output_witness :
  afterPreview (lib := Double.lib) 1700000000000 undecodable = undecodable
  /\ run (downloadPdf (lib := Double.lib) 1700000000000 undecodable)
     = (Throw DecodeError, Heap.empty).
Proof.
  destruct (decode_failure_leaves_state_and_output (lib := Double.lib)
              1700000000000 undecodable Double.badFile eq_refl eq_refl)
    as (_ & Hstate & Hdownload & _).
  split; [exact Hstate | apply Hdownload; reflexivity].
Defined.

Lemma applyAnnotationToPage_fixed_parameters_witness :
  applyAnnotationToPage (lib := Double.lib) hiNote
    (Some goodPage) {| PDFFont.name := Helvetica |} true Heap.empty
  = (Ok tt,
     {| Heap.calls :=
          [DrawText 0 "Hi"
             {| TextOptions.x := 10%float; TextOptions.y := 10%float;
                TextOptions.size := 12;
                TextOptions.font := {| PDFFont.name := Helvetica |};
                TextOptions.color := Color.rgb 0 0 0.5 |}];
        Heap.effects := [] |})
  /\ applyAnnotationToPage (lib := Double.lib) unencodableNote
       (Some goodPage) {| PDFFont.name := Helvetica |} false Heap.empty
     = (Throw EncodingError, Heap.empty)
  /\ applyAnnotationToPage (lib := Double.lib) yellowHighlight
       (Some goodPage) {| PDFFont.name := Helvetica |} false Heap.empty
     = (Ok tt,
        {| Heap.calls :=
             [DrawRectangle 0
                {| RectangleOptions.x := 50%float; RectangleOptions.y := 50%float;
                   RectangleOptions.width := 100%float;
                   RectangleOptions.height := 20%float;
                   RectangleOptions.color :=
                     Color.rgb (inject_Z 255 / 255) (inject_Z 255 / 255)
                               (inject_Z 0 / 255);
                   RectangleOptions.opacity := 0.5 |}];
           Heap.effects := [] |})
  /\ applyAnnotationToPage (lib := Double.lib) redUnderline
       (Some goodPage) {| PDFFont.name := Helvetica |} true Heap.empty
     = (Ok tt,
        {| Heap.calls :=
             [DrawLine 0
                {| LineOptions.start :=
                     {| Point.x := 30%float; Point.y := 40%float |};
                   LineOptions.end_ :=
                     {| Point.x := 110%float; Point.y := 40%float |};
                   LineOptions.thickness := 2;
                   LineOptions.color :=
                     Color.rgb (inject_Z 255 / 255) (inject_Z 0 / 255)
                               (inject_Z 0 / 255);
                   LineOptions.opacity := 0.7 |}];
           Heap.effects := [] |}).
Proof.
  destruct (applyAnnotationToPage_fixed_parameters (lib := Double.lib)
              hiNote goodPage {| PDFFont.name := Helvetica |} true Heap.empty)
    as (Htext & _ & _ & _).
  destruct (applyAnnotationToPage_fixed_parameters (lib := Double.lib)
              unencodableNote goodPage {| PDFFont.name := Helvetica |} false
              Heap.empty)
    as (_ & Hrefused & _ & _).
  destruct (applyAnnotationToPage_fixed_parameters (lib := Double.lib)
              yellowHighlight goodPage
              {| PDFFont.name := Helvetica |} false Heap.empty)
    as (_ & _ & Hhighlight & _).
  destruct (applyAnnotationToPage_fixed_parameters (lib := Double.lib)
              redUnderline goodPage {| PDFFont.name := Helvetica |} true Heap.empty)
    as (_ & _ & _ & Hunderline).
  split; [|split; [|split]].
  - rewrite (Htext eq_refl eq_refl). reflexivity.
  - exact (Hrefused eq_refl eq_refl).
  - rewrite (Hhighlight "#FFFF00" eq_refl eq_refl); [reflexivity | discriminate].
  - rewrite (Hunderline "#ff0000" eq_refl eq_refl); [reflexivity | discriminate].
Defined.

Lemma applyAnnotationToPage_without_color_witness :
  applyAnnotationToPage (lib := Double.lib) colorlessHighlight None
    {| PDFFont.name := Helvetica |} true Heap.empty
  = (Ok tt, Heap.empty).
Proof.
  apply (applyAnnotationToPage_without_color (lib := Double.lib));
    [left; reflexivity | reflexivity].
Defined.

(** C9, on a run: with the text tool selected, "Hi" typed and preview mode
    on, the draft handed to the compositor is a text annotation whose
    [color] is set, to the colour picker's value; [saveAnnotation] on the
    same state commits it with no [color]. *)
Theorem previewAnnotation_of_text_carries_color :
  previewing highlightAndDraft = true
  /\ Annotation.type (previewAnnotation highlightAndDraft) = text
  /\ Annotation.color (previewAnnotation highlightAndDraft) = Some "#FFFF00"
  /\ ~ colorRule (previewAnnotation highlightAndDraft)
  /\ Annotation.color (newAnnotation 1700000000002 highlightAndDraft) = None.
Proof.
  repeat split. intros [H _].
  assert (Hset : Annotation.color (previewAnnotation highlightAndDraft) <> None)
    by discriminate.
  destruct (H Hset); discriminate.
Qed.

(** * Further properties *)

(** ** The colour codec, on every input *)

Lemma upcase_hex (c : ascii) :
  isHexDigit (upcase c) = isHexDigit c
  /\ digit16 (upcase c) = digit16 c
  /\ Ascii.eqb (upcase c) "#"%char = Ascii.eqb c "#"%char.
Proof.
  destruct c as [[] [] [] [] [] [] [] []]; vm_compute; repeat split.
Qed.

Lemma group2_toUpperCase (s : string) :
  group2 (toUpperCase s) =
  match group2 s with
  | Some (g, rest) => Some (toUpperCase g, toUpperCase rest)
  | None => None
  end.
Proof.
  destruct s as [|c1 [|c2 rest]]; try reflexivity.
  cbn [toUpperCase group2].
  destruct (upcase_hex c1) as (-> & _ & _). destruct (upcase_hex c2) as (-> & _ & _).
  destruct (isHexDigit c1 && isHexDigit c2); reflexivity.
Qed.

Lemma groups_toUpperCase (s : string) :
  groups (toUpperCase s) =
  match groups s with
  | Some (g1, g2, g3) => Some (toUpperCase g1, toUpperCase g2, toUpperCase g3)
  | None => None
  end.
Proof.
  unfold groups. rewrite group2_toUpperCase.
  destruct (group2 s) as [[g1 s1]|]; [|reflexivity].
  rewrite group2_toUpperCase.
  destruct (group2 s1) as [[g2 s2]|]; [|reflexivity].
  rewrite group2_toUpperCase.
  destruct (group2 s2) as [[g3 [|c rest]]|]; reflexivity.
Qed.

Lemma parseInt16_from_toUpperCase (s : string) (acc : Z) :
  parseInt16_from acc (toUpperCase s) = parseInt16_from acc s.
Proof.
  revert acc. induction s as [|c s IH]; intros acc; [reflexivity|].
  cbn [toUpperCase parseInt16_from].
  destruct (upcase_hex c) as (_ & -> & _).
  destruct (digit16 c); [apply IH | reflexivity].
Qed.

(** [hexToRgb] does not tell the case of letters apart: a colour string and
    the same string in upper case give the same channels. *)
Theorem hexToRgb_ignores_case (hex : string) :
  hexToRgb (toUpperCase hex) = hexToRgb hex.
Proof.
  assert (Hexec : exec (toUpperCase hex) =
                  match exec hex with
                  | Some (g1, g2, g3) =>
                      Some (toUpperCase g1, toUpperCase g2, toUpperCase g3)
                  | None => None
                  end).
  { unfold exec. destruct hex as [|c rest]; [reflexivity|].
    cbn [toUpperCase]. destruct (upcase_hex c) as (_ & _ & ->).
    change (String (upcase c) (toUpperCase rest)) with (toUpperCase (String c rest)).
    rewrite !groups_toUpperCase.
    destruct (Ascii.eqb c "#"%char); [|reflexivity].
    destruct (groups rest) as [[[g1 g2] g3]|]; reflexivity. }
  unfold hexToRgb. rewrite Hexec.
  destruct (exec hex) as [[[g1 g2] g3]|]; [|reflexivity].
  unfold parseInt16. now rewrite !parseInt16_from_toUpperCase.
Qed.

Lemma groups_hash (s : string) : groups (String "#" s) = None.
Proof. destruct s; reflexivity. Qed.

(** One leading '#' is optional, and only one: with or without it, a
    colour string that does not itself start with '#' gives the same
    channels, and a string that starts with two '#' is never accepted,
    whatever follows. *)
Theorem hexToRgb_hash_is_optional (ds : string) :
  ((forall rest, ds <> String "#" rest) ->
   hexToRgb (String "#" ds) = hexToRgb ds)
  /\ exec (String "#" (String "#" ds)) = None
  /\ hexToRgb (String "#" (String "#" ds)) = black.
Proof.
  assert (Hdouble : exec (String "#" (String "#" ds)) = None).
  { unfold exec. rewrite Ascii.eqb_refl. now rewrite !groups_hash. }
  split; [|split; [exact Hdouble | unfold hexToRgb; now rewrite Hdouble]].
  intros Hds. unfold hexToRgb.
  replace (exec (String "#" ds)) with (exec ds); [reflexivity|].
  unfold exec at 2. rewrite Ascii.eqb_refl, groups_hash.
  unfold exec. destruct ds as [|c rest].
  - reflexivity.
  - destruct (Ascii.eqb_spec c "#"%char) as [-> | _].
    + exfalso. now apply (Hds rest).
    + now destruct (groups (String c rest)).
Qed.

Lemma hexToRgb_hash_is_optional_witness :
  hexToRgb "#FF00AA" = hexToRgb "FF00AA"
  /\ hexToRgb "FF00AA" = {| Rgb.r := 255; Rgb.g := 0; Rgb.b := 170 |}
  /\ hexToRgb "##FF00AA" = black.
Proof.
  destruct (hexToRgb_hash_is_optional "FF00AA") as (Honce & _ & Htwice).
  split; [|split; [reflexivity | exact Htwice]].
  apply Honce. intros rest. discriminate.
Defined.

Lemma hexToRgb_in_range (hex : string) : channelsInRange (hexToRgb hex).
Proof.
  destruct (exec hex) as [m|] eqn:E.
  - destruct (exec_Some hex m E) as [ds [Hds Hhex]].
    destruct (exec_sixHexDigits hex ds Hds Hhex)
      as (c1 & c2 & c3 & c4 & c5 & c6 & _ & H1 & H2 & H3 & H4 & H5 & H6 & E').
    unfold hexToRgb. rewrite E'.
    destruct (parseInt16_pair c1 c2 H1 H2) as [-> R].
    destruct (parseInt16_pair c3 c4 H3 H4) as [-> G].
    destruct (parseInt16_pair c5 c6 H5 H6) as [-> B].
    unfold channelsInRange; cbn [Rgb.r Rgb.g Rgb.b]; lia.
  - unfold hexToRgb. rewrite E. unfold channelsInRange; cbn; lia.
Qed.

Lemma unit_channel (v : Z) :
  0 <= v <= 255 -> (0 <= inject_Z v / 255 /\ inject_Z v / 255 <= 1)%Q.
Proof.
  intros Hv. unfold Qle, Qdiv, Qmult, Qinv, inject_Z. cbn. lia.
Qed.

(** Whatever the colour string, the colour handed to pdf-lib has its three
    channels in the unit interval, which is what [rgb] asks for. *)
Theorem unitColor_of_hexToRgb_in_unit_interval (hex : string) :
  let c := unitColor (hexToRgb hex) in
  (0 <= Color.red c /\ Color.red c <= 1
   /\ 0 <= Color.green c /\ Color.green c <= 1
   /\ 0 <= Color.blue c /\ Color.blue c <= 1)%Q.
Proof.
  destruct (hexToRgb_in_range hex) as (R & G & B).
  cbv zeta. unfold unitColor. cbn [Color.red Color.green Color.blue].
  destruct (unit_channel _ R), (unit_channel _ G), (unit_channel _ B).
  repeat split; assumption.
Qed.

(** ** Data URIs and signatures *)

Lemma split_comma_commaFree (s : string) :
  commaFree s -> Js.split_comma s = [s].
Proof.
  unfold commaFree. induction s as [|c s IH]; intros Hfree; [reflexivity|].
  cbn [Js.split_comma]. cbn [list_ascii_of_string] in Hfree.
  destruct (Ascii.eqb_spec c ","%char) as [-> | _].
  - exfalso. apply Hfree. now left.
  - rewrite IH; [reflexivity|]. intros Hin. apply Hfree. now right.
Qed.

Lemma split_comma_prefix (prefix rest : string) :
  commaFree prefix ->
  Js.split_comma (prefix ++ String "," rest) = prefix :: Js.split_comma rest.
Proof.
  unfold commaFree. induction prefix as [|c prefix IH]; intros Hfree.
  - reflexivity.
  - cbn [append Js.split_comma]. cbn [list_ascii_of_string] in Hfree.
    destruct (Ascii.eqb_spec c ","%char) as [-> | _].
    + exfalso. apply Hfree. now left.
    + rewrite IH; [reflexivity|]. intros Hin. apply Hfree. now right.
Qed.

Section Signatures.

Context {lib : PdfLib}.

(** The payload of a data URI is the text between its first and its second
    comma: what follows a second comma is dropped, and a data URI without a
    comma has [atob] decode the text "undefined". *)
Theorem decodeDataUri_reads_between_commas (prefix payload tail : string) :
  commaFree prefix -> commaFree payload ->
  decodeDataUri (prefix ++ String "," payload) = decodeText payload
  /\ decodeDataUri (prefix ++ String "," (payload ++ String "," tail))
     = decodeText payload
  /\ decodeDataUri prefix = decodeText "undefined".
Proof.
  intros Hprefix Hpayload. unfold decodeDataUri, decodeText. repeat split.
  - rewrite (split_comma_prefix prefix payload Hprefix).
    now rewrite (split_comma_commaFree payload Hpayload).
  - rewrite (split_comma_prefix prefix _ Hprefix).
    now rewrite (split_comma_prefix payload tail Hpayload).
  - now rewrite (split_comma_commaFree prefix Hprefix).
Qed.

(** The compositor draws a comment whose content the font can encode as
    text of size 10, black when committed and rgb(0, 0, 0.5) when a draft;
    on a content the font cannot encode [page.drawText] throws and nothing
    is drawn.  A signature whose payload decodes to a PNG is embedded and
    drawn at (x, y), 150 by 60, at opacity 1 when committed and 0.7 when a
    draft, with nothing written to the console. *)
Theorem applyAnnotationToPage_comment_and_signature (annotation : Annotation.t)
    (p : PDFPage) (font : PDFFont.t) (isPreview : bool) (h : Heap.t) :
  let pos := Annotation.position annotation in
  (Annotation.type annotation = comment ->
   encodes (PDFFont.name font) (Annotation.content annotation) = true ->
   applyAnnotationToPage annotation (Some p) font isPreview h =
   call (DrawText (index p) (Annotation.content annotation)
           {| TextOptions.x := Position.x pos;
              TextOptions.y := Position.y pos;
              TextOptions.size := 10;
              TextOptions.font := font;
              TextOptions.color :=
                if isPreview then Color.rgb 0 0 0.5 else Color.rgb 0 0 0 |}) h)
  /\ (Annotation.type annotation = comment ->
      encodes (PDFFont.name font) (Annotation.content annotation) = false ->
      applyAnnotationToPage annotation (Some p) font isPreview h
      = (Throw EncodingError, h))
  /\ (forall data binary : string,
        Annotation.type annotation = signature ->
        Annotation.imageData annotation = Some data -> data <> EmptyString ->
        atob (Js.toDOMString (nth_error (Js.split_comma data) 1)) = Some binary ->
        isPng (list_byte_of_string binary) = true ->
        applyAnnotationToPage annotation (Some p) font isPreview h =
        (Ok tt,
         {| Heap.calls :=
              Heap.calls h ++
              [EmbedPng (list_byte_of_string binary);
               DrawImage (index p)
                 {| PDFImage.png := list_byte_of_string binary |}
                 {| ImageOptions.x := Position.x pos;
                    ImageOptions.y := Position.y pos;
                    ImageOptions.width := 150;
                    ImageOptions.height := 60;
                    ImageOptions.opacity := if isPreview then 0.7 else 1 |}];
            Heap.effects := Heap.effects h |})).
Proof.
  cbv zeta. unfold applyAnnotationToPage, drawText. split; [|split].
  - intros -> Henc. cbn [TextOptions.font]. rewrite Henc.
    destruct isPreview; reflexivity.
  - intros -> Henc. cbn [TextOptions.font]. now rewrite Henc.
  - intros data binary -> -> Hdata Hatob Hpng.
    destruct data; [congruence|]. cbn [Js.truthy].
    unfold tryCatch, bind, decodeDataUri, embedPng, page_doc, drawImage, onPage.
    rewrite Hatob. cbn [ret]. rewrite Hpng. cbn.
    now rewrite <- app_assoc.
Qed.

(** A signature whose image data has no comma is never embedded in a
    browser whose [atob] rejects the text "undefined": the page is left as
    it was and the error goes to the console. *)
Theorem signature_without_comma_is_skipped (annotation : Annotation.t)
    (page : option PDFPage) (font : PDFFont.t) (isPreview : bool) (h : Heap.t)
    (data : string) :
  atob "undefined" = None ->
  Annotation.type annotation = signature ->
  Annotation.imageData annotation = Some data ->
  data <> EmptyString -> commaFree data ->
  applyAnnotationToPage annotation page font isPreview h =
  (Ok tt,
   {| Heap.calls := Heap.calls h;
      Heap.effects :=
        Heap.effects h ++
        [ConsoleError "Error embedding signature:" InvalidCharacterError] |}).
Proof.
  intros Hatob Htype Hdata Hne Hfree. unfold applyAnnotationToPage.
  rewrite Htype, Hdata. destruct data as [|c data]; [congruence|].
  cbn [Js.truthy]. unfold tryCatch, bind, decodeDataUri.
  rewrite (split_comma_commaFree _ Hfree). cbn [nth_error Js.toDOMString].
  rewrite Hatob. reflexivity.
Qed.

End Signatures.

(** ** The handlers on the committed annotations *)

Lemma Date_toString_nonempty (now : Z) : Date_toString now <> EmptyString.
Proof.
  unfold Date_toString, NilZero.string_of_int.
  destruct (Z.to_int now) as [d | d]; [|discriminate].
  destruct d; discriminate.
Qed.

Lemma newAnnotation_id (now : Z) (s : EditorState) (e : string) :
  editingId s = Some e -> e <> EmptyString ->
  Annotation.id (newAnnotation now s) = e.
Proof.
  intros He Hne. unfold newAnnotation. cbn [Annotation.id]. rewrite He.
  destruct e; [congruence | reflexivity].
Qed.

Lemma saveAnnotation_editing (now : Z) (s : EditorState) (e : string) :
  saveRefused s = false -> editingId s = Some e -> e <> EmptyString ->
  annotations (next (saveAnnotation now s)) =
  map (fun ann => if String.eqb e (Annotation.id ann)
                  then newAnnotation now s else ann) (annotations s).
Proof.
  intros Hgo He Hne. unfold saveAnnotation. rewrite Hgo. cbn.
  unfold isEditing. rewrite He. cbn [Js.truthyOpt].
  destruct e; [congruence | reflexivity].
Qed.

Lemma saveAnnotation_appending (now : Z) (s : EditorState) :
  saveRefused s = false -> Js.truthyOpt (editingId s) = false ->
  annotations (next (saveAnnotation now s)) =
  (annotations s ++ [newAnnotation now s])%list.
Proof.
  intros Hgo He. unfold saveAnnotation. rewrite Hgo. cbn. now rewrite He.
Qed.

(** Saving an edit replaces the edited annotation where it stands: the
    store keeps its length and its sequence of identifiers, every
    annotation with another identifier is kept as it is, and the ones with
    the edited identifier become the annotation built from the form. *)
Theorem saveAnnotation_updates_in_place (now : Z) (s : EditorState) (e : string) :
  saveRefused s = false -> editingId s = Some e -> e <> EmptyString ->
  let saved := annotations (next (saveAnnotation now s)) in
  map Annotation.id saved = map Annotation.id (annotations s)
  /\ List.length saved = List.length (annotations s)
  /\ forall n a, nth_error (annotations s) n = Some a ->
       nth_error saved n =
       Some (if String.eqb (Annotation.id a) e then newAnnotation now s else a).
Proof.
  intros Hgo He Hne. cbv zeta.
  rewrite (saveAnnotation_editing now s e Hgo He Hne).
  pose proof (newAnnotation_id now s e He Hne) as Hid.
  split; [|split].
  - rewrite map_map. apply map_ext. intros a.
    destruct (String.eqb_spec e (Annotation.id a)); congruence.
  - apply List.length_map.
  - intros n a Hn. rewrite nth_error_map, Hn. cbn [option_map].
    now rewrite (String.eqb_sym e).
Qed.

(** Deleting by identifier removes every annotation with that identifier
    and no other; deleting an identifier that is not in the store leaves
    the store as it was; the draft is dropped exactly when the deleted
    annotation was the one under edit. *)
Theorem deleteAnnotation_removes_exactly (id : string) (s : EditorState) :
  let s' := next (deleteAnnotation id s) in
  ~ In id (map Annotation.id (annotations s'))
  /\ (forall a, In a (annotations s') <->
                In a (annotations s) /\ Annotation.id a <> id)
  /\ (~ In id (map Annotation.id (annotations s)) ->
      annotations s' = annotations s)
  /\ (editingId s = Some id ->
      editingId s' = None /\ content s' = EmptyString
      /\ signatureData s' = None /\ previewMode s' = false)
  /\ (editingId s <> Some id ->
      editingId s' = editingId s /\ content s' = content s
      /\ signatureData s' = signatureData s /\ previewMode s' = previewMode s).
Proof.
  cbv zeta.
  assert (Hanns : annotations (next (deleteAnnotation id s)) =
                  filter (fun ann => negb (String.eqb (Annotation.id ann) id))
                         (annotations s)).
  { unfold deleteAnnotation. now destruct (isEditing s id). }
  assert (Hmem : forall a,
             In a (annotations (next (deleteAnnotation id s))) <->
             In a (annotations s) /\ Annotation.id a <> id).
  { intros a. rewrite Hanns, filter_In, negb_true_iff.
    destruct (String.eqb_spec (Annotation.id a) id); intuition congruence. }
  split; [|split; [exact Hmem|split; [|split]]].
  - rewrite in_map_iff. intros [a [Ha Hin]]. apply Hmem in Hin. tauto.
  - intros Habsent. rewrite Hanns.
    apply forallb_filter_id. apply forallb_forall. intros a Ha.
    apply negb_true_iff. apply String.eqb_neq. intros Heq.
    apply Habsent. rewrite <- Heq. now apply in_map.
  - intros He. unfold deleteAnnotation, isEditing. rewrite He, String.eqb_refl.
    repeat split.
  - intros He. unfold deleteAnnotation, isEditing.
    destruct (editingId s) as [e|] eqn:Hed.
    + destruct (String.eqb_spec e id) as [-> | _]; [congruence|].
      cbn. now rewrite Hed.
    + cbn. now rewrite Hed.
Qed.

(** The fields of an annotation that a drag leaves alone. *)
Lemma moveTo_keeps (x y : float) (a : Annotation.t) :
  Annotation.id (moveTo x y a) = Annotation.id a
  /\ Annotation.type (moveTo x y a) = Annotation.type a
  /\ Annotation.content (moveTo x y a) = Annotation.content a
  /\ Annotation.color (moveTo x y a) = Annotation.color a
  /\ Annotation.imageData (moveTo x y a) = Annotation.imageData a
  /\ Position.width (Annotation.position (moveTo x y a))
     = Position.width (Annotation.position a)
  /\ Position.height (Annotation.position (moveTo x y a))
     = Position.height (Annotation.position a).
Proof. repeat split. Qed.

(** A drag changes nothing but the x and y of the dragged annotation: the
    store keeps its length and order, every annotation keeps its
    identifier, kind, content, colour, image data, width and height, and
    the annotations that are not being dragged are untouched. *)
Theorem handleDrag_moves_only_the_dragged (clientX clientY : float)
    (s : EditorState) :
  Forall2
    (fun a a' =>
       Annotation.id a' = Annotation.id a
       /\ Annotation.type a' = Annotation.type a
       /\ Annotation.content a' = Annotation.content a
       /\ Annotation.color a' = Annotation.color a
       /\ Annotation.imageData a' = Annotation.imageData a
       /\ Position.width (Annotation.position a')
          = Position.width (Annotation.position a)
       /\ Position.height (Annotation.position a')
          = Position.height (Annotation.position a)
       /\ (draggingId s <> Some (Annotation.id a) -> a' = a))
    (annotations s) (annotations (next (handleDrag clientX clientY s))).
Proof.
  assert (Hsame : forall l : list Annotation.t,
             Forall2 (fun a a' =>
               Annotation.id a' = Annotation.id a
               /\ Annotation.type a' = Annotation.type a
               /\ Annotation.content a' = Annotation.content a
               /\ Annotation.color a' = Annotation.color a
               /\ Annotation.imageData a' = Annotation.imageData a
               /\ Position.width (Annotation.position a')
                  = Position.width (Annotation.position a)
               /\ Position.height (Annotation.position a')
                  = Position.height (Annotation.position a)
               /\ (draggingId s <> Some (Annotation.id a) -> a' = a)) l l).
  { induction l; constructor; [repeat split | assumption]. }
  unfold handleDrag. destruct (draggingId s) as [d|] eqn:Hd; [|apply Hsame].
  destruct (Js.truthy d); [|apply Hsame]. cbn.
  induction (annotations s) as [|a l IH]; cbn [map]; constructor; [|exact IH].
  destruct (String.eqb_spec (Annotation.id a) d) as [Heq | Hneq].
  - repeat split. intros Hnot. congruence.
  - repeat split.
Qed.

Lemma find_map_same_test {A} (test : A -> bool) (f : A -> A) (l : list A) :
  (forall a, test (f a) = test a) ->
  find test (map f l) = option_map f (find test l).
Proof.
  intros Hf. induction l as [|a l IH]; [reflexivity|].
  cbn [map find]. rewrite Hf. destruct (test a); [reflexivity | exact IH].
Qed.

(** Pressing the pointer at (x0, y0) on an annotation and moving it to
    (x1, y1) puts the annotation where the pointer is, less the offset
    taken at the press: at x1 - (x0 - x) and y1 - (y0 - y), the differences
    being those of doubles.  Every annotation with the pressed identifier
    goes there, the one found under it among them, and all else is kept. *)
Theorem drag_follows_the_pointer_at_the_press_offset
    (x0 y0 x1 y1 : float) (id : string) (s : EditorState) (a : Annotation.t) :
  id <> EmptyString ->
  findAnnotation id (annotations s) = Some a ->
  let dragged :=
    moveTo (x1 - (x0 - Position.x (Annotation.position a)))%float
           (y1 - (y0 - Position.y (Annotation.position a)))%float in
  let s' := next (handleDrag x1 y1 (next (startDragging x0 y0 id s))) in
  annotations s' =
    map (fun ann => if String.eqb (Annotation.id ann) id then dragged ann else ann)
        (annotations s)
  /\ findAnnotation id (annotations s') = Some (dragged a)
  /\ draggingId s' = Some id.
Proof.
  intros Hne Hfind. cbv zeta.
  assert (Hanns :
    annotations (next (handleDrag x1 y1 (next (startDragging x0 y0 id s)))) =
    map (fun ann =>
           if String.eqb (Annotation.id ann) id
           then moveTo (x1 - (x0 - Position.x (Annotation.position a)))%float
                       (y1 - (y0 - Position.y (Annotation.position a)))%float ann
           else ann) (annotations s)).
  { unfold startDragging. rewrite Hfind. unfold handleDrag. cbn.
    destruct id; [congruence|]. reflexivity. }
  split; [exact Hanns|]. split.
  - rewrite Hanns. unfold findAnnotation in *.
    rewrite find_map_same_test.
    + rewrite Hfind. cbn [option_map].
      apply find_some in Hfind. destruct Hfind as [_ Heq]. now rewrite Heq.
    + intros ann. cbv beta.
      destruct (String.eqb (Annotation.id ann) id) eqn:E;
        cbn [moveTo Annotation.id]; now rewrite E.
  - unfold startDragging. rewrite Hfind. unfold handleDrag. cbn.
    destruct id; [congruence|]. reflexivity.
Qed.

Lemma startEditing_found (id : string) (s : EditorState) (a : Annotation.t) :
  findAnnotation id (annotations s) = Some a ->
  editingId (next (startEditing id s)) = Some id
  /\ activeTool (next (startEditing id s)) = Annotation.type a
  /\ content (next (startEditing id s)) = Annotation.content a
  /\ position (next (startEditing id s)) = Annotation.position a
  /\ pdfFile (next (startEditing id s)) = pdfFile s
  /\ annotations (next (startEditing id s)) = annotations s
  /\ previewMode (next (startEditing id s)) = true.
Proof.
  intros Hfind. unfold startEditing. rewrite Hfind.
  destruct (Annotation.color a) as [c|]; [destruct (Js.truthy c)|];
    (destruct (Annotation.imageData a) as [d|]; [destruct (Js.truthy d)|]);
    repeat split.
Qed.

(** Opened in the form and saved untouched, an annotation is built again as
    it was. *)
Lemma newAnnotation_after_startEditing (now : Z) (id : string)
    (s : EditorState) (a : Annotation.t) :
  id <> EmptyString ->
  findAnnotation id (annotations s) = Some a ->
  savedShape a ->
  newAnnotation now (next (startEditing id s)) = a.
Proof.
  intros Hne Hfind (Hcol & Hnocol & Hsig & Hother).
  pose proof (find_some _ _ Hfind) as [_ Hid]. apply String.eqb_eq in Hid.
  unfold newAnnotation, startEditing. rewrite Hfind.
  destruct a as [aid ty ct pos col img]. cbn in *. subst aid.
  destruct id as [|i0 id]; [congruence|].
  destruct ty; cbn in *.
  - rewrite (Hnocol eq_refl). destruct Hother as [-> _]; [discriminate|].
    reflexivity.
  - destruct (Hcol eq_refl) as [c [-> Hc]]. destruct Hother as [-> _]; [discriminate|].
    destruct c; [congruence|]. reflexivity.
  - destruct (Hcol eq_refl) as [c [-> Hc]]. destruct Hother as [-> _]; [discriminate|].
    destruct c; [congruence|]. reflexivity.
  - rewrite (Hnocol eq_refl). destruct Hother as [-> _]; [discriminate|].
    reflexivity.
  - rewrite (Hnocol eq_refl). destruct (Hsig eq_refl) as [-> [d [-> Hd]]].
    destruct d; [congruence|]. reflexivity.
Qed.

Lemma NoDup_map_injective {A B} (f : A -> B) (l : list A) (x y : A) :
  NoDup (map f l) -> In x l -> In y l -> f x = f y -> x = y.
Proof.
  induction l as [|a l IH]; intros Hnd Hx Hy Hf; [contradiction|].
  cbn [map] in Hnd. inversion Hnd as [|? ? Hnotin Hnd']; subst.
  destruct Hx as [-> | Hx], Hy as [-> | Hy].
  - reflexivity.
  - exfalso. apply Hnotin. rewrite Hf. now apply in_map.
  - exfalso. apply Hnotin. rewrite <- Hf. now apply in_map.
  - now apply IH.
Qed.

(** Opening a committed annotation in the form and saving it untouched
    gives back the store as it was, when a document is loaded, identifiers
    are distinct and the annotation has the fields [saveAnnotation] gives
    to its kind. *)
Theorem edit_then_save_untouched_is_identity (now : Z) (id : string)
    (s : EditorState) (a : Annotation.t) :
  pdfFile s <> None ->
  id <> EmptyString ->
  NoDup (map Annotation.id (annotations s)) ->
  findAnnotation id (annotations s) = Some a ->
  savedShape a ->
  annotations (next (saveAnnotation now (next (startEditing id s))))
  = annotations s.
Proof.
  intros Hfile Hne Hnodup Hfind Hshape.
  destruct (startEditing_found id s a Hfind)
    as (Hed & Htool & Hcontent & _ & Hpdf & Hanns & _).
  assert (Hgo : saveRefused (next (startEditing id s)) = false).
  { unfold saveRefused. rewrite Hpdf, Htool, Hcontent.
    destruct (pdfFile s); [|congruence]. rewrite orb_false_r.
    destruct Hshape as (_ & _ & _ & Hother).
    destruct (Annotation.type a) eqn:Hty; cbn [AnnotationType_eqb negb];
      try apply andb_false_r;
      (destruct Hother as [_ Hct]; [discriminate|]);
      (destruct (Annotation.content a); [congruence | reflexivity]). }
  rewrite (saveAnnotation_editing now _ id Hgo Hed Hne).
  rewrite (newAnnotation_after_startEditing now id s a Hne Hfind Hshape).
  rewrite Hanns.
  pose proof (find_some _ _ Hfind) as [Hin Hid]. apply String.eqb_eq in Hid.
  rewrite <- (map_id (annotations s)) at 2.
  apply map_ext_in. intros b Hb.
  destruct (String.eqb_spec id (Annotation.id b)) as [Heq | _]; [|reflexivity].
  apply (NoDup_map_injective Annotation.id (annotations s)); congruence.
Qed.

(** *** Shapes kept on the store *)

Lemma handleDrag_store (clientX clientY : float) (s : EditorState) :
  exists x y test,
    annotations (next (handleDrag clientX clientY s)) =
    map (fun ann => if test ann : bool then moveTo x y ann else ann) (annotations s).
Proof.
  unfold handleDrag. destruct (draggingId s) as [d|].
  - destruct (Js.truthy d).
    + now eexists _, _, (fun ann => String.eqb (Annotation.id ann) d).
    + exists 0%float, 0%float, (fun _ => false). cbn. now rewrite map_id.
  - exists 0%float, 0%float, (fun _ => false). cbn. now rewrite map_id.
Qed.

Lemma deleteAnnotation_store (id : string) (s : EditorState) :
  annotations (next (deleteAnnotation id s)) =
  filter (fun ann => negb (String.eqb (Annotation.id ann) id)) (annotations s).
Proof. unfold deleteAnnotation. now destruct (isEditing s id). Qed.

Lemma saveAnnotation_store (P : Annotation.t -> Prop) (now : Z) (s : EditorState) :
  (saveRefused s = false -> P (newAnnotation now s)) ->
  Forall P (annotations s) ->
  Forall P (annotations (next (saveAnnotation now s))).
Proof.
  intros Hnew Hall. unfold saveAnnotation.
  destruct (saveRefused s); [exact Hall|]. cbn.
  destruct (Js.truthyOpt (editingId s)).
  - apply Forall_map. eapply Forall_impl; [|exact Hall].
    intros a Ha. destruct (isEditing s (Annotation.id a)); auto.
  - apply Forall_app. split; [exact Hall|]. constructor; auto.
Qed.

(** A shape that a drag keeps is kept on the whole store by dragging, by
    deleting and by loading a document. *)
Lemma store_shape_kept (P : Annotation.t -> Prop) (clientX clientY : float)
    (id : string) (file : File.t) (s : EditorState) :
  (forall x y a, P a -> P (moveTo x y a)) ->
  Forall P (annotations s) ->
  Forall P (annotations (next (handleDrag clientX clientY s)))
  /\ Forall P (annotations (next (deleteAnnotation id s)))
  /\ Forall P (annotations (next (handlePdfUpload file s))).
Proof.
  intros Hmove Hall. split; [|split].
  - destruct (handleDrag_store clientX clientY s) as (x & y & test & ->).
    apply Forall_map. eapply Forall_impl; [|exact Hall].
    intros a Ha. destruct (test a); auto.
  - rewrite deleteAnnotation_store. apply Forall_forall. intros a Ha.
    apply filter_In in Ha. destruct Ha as [Ha _]. revert a Ha.
    now apply Forall_forall.
  - constructor.
Qed.

Lemma newAnnotation_hasContentAndId (now : Z) (s : EditorState) :
  saveRefused s = false -> hasContentAndId (newAnnotation now s).
Proof.
  unfold saveRefused, hasContentAndId, newAnnotation. cbn. intros Hgo. split.
  - destruct (activeTool s); cbn in *; try discriminate;
      destruct (content s); cbn in *; congruence.
  - destruct (editingId s) as [[|c e]|]; cbn;
      first [apply Date_toString_nonempty | discriminate].
Qed.

(** Every committed annotation has content and an identifier: saving,
    dragging, deleting and loading a document keep this true of the whole
    store. *)
Theorem store_keeps_content_and_identifiers (now : Z) (clientX clientY : float)
    (id : string) (file : File.t) (s : EditorState) :
  Forall hasContentAndId (annotations s) ->
  Forall hasContentAndId (annotations (next (saveAnnotation now s)))
  /\ Forall hasContentAndId (annotations (next (handleDrag clientX clientY s)))
  /\ Forall hasContentAndId (annotations (next (deleteAnnotation id s)))
  /\ Forall hasContentAndId (annotations (next (handlePdfUpload file s))).
Proof.
  intros Hall. split.
  - apply saveAnnotation_store; [apply newAnnotation_hasContentAndId | exact Hall].
  - apply store_shape_kept; [|exact Hall]. intros x y a Ha. exact Ha.
Qed.

(** Through the Save button, every committed signature carries image data:
    a click on Save, a drag, a deletion and the loading of a document keep
    this true of the whole store. *)
Theorem save_button_keeps_signatures_signed (now : Z) (clientX clientY : float)
    (id : string) (file : File.t) (s : EditorState) :
  Forall signed (annotations s) ->
  Forall signed (annotations (next (clickSave now s)))
  /\ Forall signed (annotations (next (handleDrag clientX clientY s)))
  /\ Forall signed (annotations (next (deleteAnnotation id s)))
  /\ Forall signed (annotations (next (handlePdfUpload file s))).
Proof.
  intros Hall. split.
  - unfold clickSave, saveButton.
    destruct (pdfUrl s); [|exact Hall].
    destruct (previewMode s); [|exact Hall]. cbn [disabled].
    destruct (AnnotationType_eqb (activeTool s) signature
              && negb (Js.truthyOpt (signatureData s))) eqn:Hdis; [exact Hall|].
    apply saveAnnotation_store; [|exact Hall].
    intros _. unfold signed, newAnnotation. cbn. intros Hty.
    rewrite Hty in *. cbn in *. unfold Js.orUndefined.
    destruct (Js.truthyOpt (signatureData s)) eqn:Hdata; [exact Hdata | discriminate].
  - apply store_shape_kept; [|exact Hall]. intros x y a Ha. exact Ha.
Qed.

(** *** The annotation under edit *)

Lemma handleDrag_ids (clientX clientY : float) (s : EditorState) :
  map Annotation.id (annotations (next (handleDrag clientX clientY s)))
  = map Annotation.id (annotations s)
  /\ editingId (next (handleDrag clientX clientY s)) = editingId s.
Proof.
  split.
  - destruct (handleDrag_store clientX clientY s) as (x & y & test & ->).
    rewrite map_map. apply map_ext. intros a. now destruct (test a).
  - unfold handleDrag. destruct (draggingId s) as [d|]; [destruct (Js.truthy d)|];
      reflexivity.
Qed.

(** The annotation under edit is always one of the store: every handler
    that writes [editingId] or the annotations keeps it so. *)
Theorem editing_targets_a_committed_annotation (now : Z)
    (clientX clientY : float)
    (id : string) (tool : AnnotationType) (file : File.t) (s : EditorState) :
  editingExists s ->
  editingExists (next (startEditing id s))
  /\ editingExists (next (deleteAnnotation id s))
  /\ editingExists (next (saveAnnotation now s))
  /\ editingExists (next (cancelEditing s))
  /\ editingExists (next (selectTool tool s))
  /\ editingExists (next (handlePdfUpload file s))
  /\ editingExists (next (handleDrag clientX clientY s))
  /\ editingExists (next (startDragging clientX clientY id s))
  /\ editingExists (next (endDragging s)).
Proof.
  intros Hinv. unfold editingExists in *.
  repeat match goal with |- _ /\ _ => split end.
  - destruct (findAnnotation id (annotations s)) as [a|] eqn:Hfind.
    + destruct (startEditing_found id s a Hfind) as (-> & _ & _ & _ & _ & -> & _).
      intros e He. injection He as <-.
      pose proof (find_some _ _ Hfind) as [Hin Hid]. apply String.eqb_eq in Hid.
      rewrite <- Hid. now apply in_map.
    + unfold startEditing. rewrite Hfind. exact Hinv.
  - rewrite deleteAnnotation_store. unfold deleteAnnotation, isEditing.
    destruct (editingId s) as [e0|] eqn:Hed; [|cbn; rewrite Hed; discriminate].
    destruct (String.eqb_spec e0 id) as [-> | Hneq]; [cbn; discriminate|].
    cbn. rewrite Hed. intros e He. injection He as <-.
    specialize (Hinv e0 eq_refl). apply in_map_iff in Hinv.
    destruct Hinv as [a [Ha Hin]]. apply in_map_iff. exists a. split; [exact Ha|].
    apply filter_In. split; [exact Hin|]. apply negb_true_iff.
    apply String.eqb_neq. congruence.
  - unfold saveAnnotation. destruct (saveRefused s); [exact Hinv | cbn; discriminate].
  - cbn. discriminate.
  - cbn. discriminate.
  - cbn. discriminate.
  - destruct (handleDrag_ids clientX clientY s) as [-> ->]. exact Hinv.
  - unfold startDragging. now destruct (findAnnotation id (annotations s)).
  - exact Hinv.
Qed.

(** A save that is not refused never loses the form: when the annotation
    under edit is one of the store, the annotation built from the form is
    in the store afterwards, whether it replaced an entry or was added. *)
Theorem saveAnnotation_stores_the_form (now : Z) (s : EditorState) :
  editingExists s -> saveRefused s = false ->
  In (newAnnotation now s) (annotations (next (saveAnnotation now s))).
Proof.
  intros Hinv Hgo.
  destruct (editingId s) as [[|c e]|] eqn:Hed.
  - rewrite saveAnnotation_appending; [|exact Hgo | now rewrite Hed].
    apply in_or_app. right. now left.
  - rewrite (saveAnnotation_editing now s (String c e) Hgo Hed) by discriminate.
    specialize (Hinv _ Hed). apply in_map_iff in Hinv. destruct Hinv as [a [Ha Hin]].
    apply in_map_iff. exists a. split; [|exact Hin].
    rewrite Ha. now rewrite String.eqb_refl.
  - rewrite saveAnnotation_appending; [|exact Hgo | now rewrite Hed].
    apply in_or_app. right. now left.
Qed.

(** ** Passes after an edit *)

Section Edits.

Context {lib : PdfLib}.

Lemma newAnnotation_draws_as_previewAnnotation (now : Z) (s : EditorState)
    (page : option PDFPage) (font : PDFFont.t) (isPreview : bool) :
  applyAnnotationToPage (newAnnotation now s) page font isPreview
  = applyAnnotationToPage (previewAnnotation s) page font isPreview.
Proof.
  unfold applyAnnotationToPage, newAnnotation, previewAnnotation.
  cbn [Annotation.type Annotation.position Annotation.content
       Annotation.color Annotation.imageData].
  destruct (activeTool s); reflexivity.
Qed.

(** The annotation that a save commits leaves the marks its draft left in
    the preview, but for the draft flag: on any page, with either flag,
    both draw the same calls, write the same to the console and settle
    alike, although the two differ in identifier and may differ in content
    and colour. *)
Theorem saved_annotation_draws_like_its_draft (now : Z) (s : EditorState)
    (page : option PDFPage) (font : PDFFont.t) (isPreview : bool) :
  marks (newAnnotation now s) page font isPreview
  = marks (previewAnnotation s) page font isPreview
  /\ notes (newAnnotation now s) page font isPreview
     = notes (previewAnnotation s) page font isPreview
  /\ settled (applyAnnotationToPage (newAnnotation now s) page font isPreview)
     = settled (applyAnnotationToPage (previewAnnotation s) page font isPreview).
Proof.
  unfold marks, notes, callsOf, effectsOf, settled.
  now rewrite newAnnotation_draws_as_previewAnnotation.
Qed.

Lemma previewing_not_refused (s : EditorState) (file : File.t) :
  pdfFile s = Some file -> previewing s = true -> saveRefused s = false.
Proof.
  unfold previewing, saveRefused. intros -> Hp.
  apply andb_true_iff in Hp. destruct Hp as [_ Hp]. rewrite orb_false_r.
  destruct (Js.truthy (content s)); [reflexivity|]. cbn in Hp |- *.
  now rewrite Hp.
Qed.

Lemma drawnPrefix_app (font : PDFFont.t) (l l' : list Annotation.t) :
  forallb (drawable font) l = true ->
  drawnPrefix font (l ++ l') = (l ++ drawnPrefix font l')%list.
Proof.
  induction l as [|a l IH]; [reflexivity|]. cbn [forallb app drawnPrefix].
  intros H. apply andb_true_iff in H. destruct H as [-> Hl]. now rewrite IH.
Qed.

(** The marks the loop leaves for a store of one annotation. *)
Lemma marks_of_one (a : Annotation.t) (p : PDFPage) (font : PDFFont.t)
    (isPreview : bool) :
  flat_map (fun ann => marks ann (Some p) font isPreview) (drawnPrefix font [a])
  = marks a (Some p) font isPreview.
Proof.
  cbn [drawnPrefix]. destruct (drawable font a) eqn:Ha; cbn [flat_map].
  - apply app_nil_r.
  - now destruct (refused_leaves_nothing a p font isPreview Ha) as [-> _].
Qed.

(** Saving a new annotation turns the draft of the preview into the last
    committed mark: when [page.drawText] refuses no text of the store, the
    preview after the save draws what the preview before it drew, in the
    same order, with the draft redrawn in committed style and no draft on
    top; a draft that [page.drawText] refuses is drawn in neither. *)
Theorem save_redraws_the_draft_as_committed (t1 t2 now : Z) (s : EditorState)
    (file : File.t) (p : Parsed) :
  pdfFile s = Some file ->
  parse (File.arrayBuffer file) = Some p ->
  pageCount p <> 0%nat ->
  Js.truthyOpt (editingId s) = false ->
  previewing s = true ->
  forallb (drawable {| PDFFont.name := Helvetica |}) (annotations s) = true ->
  let page := Some {| doc := {| parsed := p; loadedAt := t1 |}; index := 0 |} in
  let font := {| PDFFont.name := Helvetica |} in
  let committed :=
    flat_map (fun ann => marks ann page font false) (annotations s) in
  callsOf (updatePdfPreview t1 s)
  = EmbedFont Helvetica :: committed ++ marks (previewAnnotation s) page font true
  /\ callsOf (updatePdfPreview t2 (next (saveAnnotation now s)))
     = EmbedFont Helvetica :: committed ++ marks (previewAnnotation s) page font false.
Proof.
  intros Hfile Hparse Hpages Hnew Hprev Hdrawable. cbv zeta.
  set (font0 := {| PDFFont.name := Helvetica |}) in *.
  pose proof (previewing_not_refused s file Hfile Hprev) as Hgo.
  split.
  - unfold callsOf. rewrite (updatePdfPreview_run t1 s file p Hfile Hparse Hpages).
    cbn [snd Heap.calls]. fold font0.
    now rewrite Hprev, Hdrawable, (drawnPrefix_all font0 _ Hdrawable).
  - assert (Hfile' : pdfFile (next (saveAnnotation now s)) = Some file).
    { unfold saveAnnotation. rewrite Hgo. exact Hfile. }
    assert (Hprev' : previewing (next (saveAnnotation now s)) = false).
    { unfold saveAnnotation. rewrite Hgo. reflexivity. }
    unfold callsOf.
    rewrite (updatePdfPreview_run _ _ file p Hfile' Hparse Hpages).
    cbn [snd Heap.calls]. fold font0. rewrite Hprev', andb_false_r, app_nil_r.
    rewrite (saveAnnotation_appending now s Hgo Hnew).
    rewrite (drawnPrefix_app font0 _ _ Hdrawable), flat_map_app, marks_of_one.
    unfold marks at 2. rewrite newAnnotation_draws_as_previewAnnotation.
    fold (marks (previewAnnotation s)
            (Some {| doc := {| parsed := p; loadedAt := t2 |}; index := 0 |})
            font0 false).
    rewrite (marks_page_index (previewAnnotation s)
               {| doc := {| parsed := p; loadedAt := t2 |}; index := 0 |}
               {| doc := {| parsed := p; loadedAt := t1 |}; index := 0 |}
               font0 false eq_refl).
    rewrite (flat_map_ext
               (fun ann => marks ann
                  (Some {| doc := {| parsed := p; loadedAt := t2 |}; index := 0 |})
                  font0 false)
               (fun ann => marks ann
                  (Some {| doc := {| parsed := p; loadedAt := t1 |}; index := 0 |})
                  font0 false)
               (fun ann => marks_page_index ann _ _ font0 false eq_refl)).
    reflexivity.
Qed.

(** Loading a document starts from a clean slate: no annotation of the
    document before is kept and no draft is on show, so the first preview
    of a document that decodes is its source with the font embedded and
    nothing drawn, and there is nothing to export yet.  This holds even of
    a document without pages. *)
Theorem handlePdfUpload_starts_clean (now : Z) (file : File.t) (s : EditorState)
    (p : Parsed) :
  parse (File.arrayBuffer file) = Some p ->
  let s' := next (handlePdfUpload file s) in
  annotations s' = []
  /\ previewing s' = false
  /\ editingId s' = None
  /\ run (updatePdfPreview now s') =
     (Ok tt,
      {| Heap.calls := [EmbedFont Helvetica];
         Heap.effects :=
           [SetPdfUrl (UrlOfBlob (serialize p now [EmbedFont Helvetica])
                                 "application/pdf")] |})
  /\ run (downloadPdf now s') = (Ok tt, Heap.empty).
Proof.
  intros Hparse. cbv zeta. repeat split.
  unfold run, updatePdfPreview. cbn [next handlePdfUpload pdfFile setSignatureData
    setPreviewMode setEditingId setAnnotations setPdfUrl setPdfFile].
  unfold tryCatch, bind at 1, load. rewrite Hparse. reflexivity.
Qed.

End Edits.

(** ** Export, and documents without a page *)

Section Exporting.

Context {lib : PdfLib}.

Lemma notes_consoleOnly (annotation : Annotation.t) (page : option PDFPage)
    (font : PDFFont.t) (isPreview : bool) :
  consoleOnly (notes annotation page font isPreview).
Proof.
  unfold consoleOnly, notes, effectsOf, run, applyAnnotationToPage,
    drawText, drawRectangle, drawLine, drawImage, onPage.
  destruct (Annotation.type annotation).
  - destruct page; [destruct (encodes _ _)|]; cbn; constructor.
  - destruct (Annotation.color annotation) as [c|]; [destruct (Js.truthy c)|];
      destruct page; cbn; constructor.
  - destruct (Annotation.color annotation) as [c|]; [destruct (Js.truthy c)|];
      destruct page; cbn; constructor.
  - destruct page; [destruct (encodes _ _)|]; cbn; constructor.
  - destruct (Annotation.imageData annotation) as [d|]; [destruct (Js.truthy d)|];
      try (cbn; constructor).
    unfold tryCatch, bind, decodeDataUri, embedPng, page_doc.
    destruct (atob _) as [binary|]; [|cbn; repeat constructor; eauto].
    destruct page; [|cbn; repeat constructor; eauto].
    cbn. destruct (isPng _); cbn; repeat constructor; eauto.
Qed.

Lemma flat_map_notes_consoleOnly (l : list Annotation.t) (page : option PDFPage)
    (font : PDFFont.t) (isPreview : bool) :
  consoleOnly (flat_map (fun ann => notes ann page font isPreview) l).
Proof.
  unfold consoleOnly. induction l as [|a l IH]; [constructor|].
  cbn [flat_map]. apply Forall_app. split; [apply notes_consoleOnly | exact IH].
Qed.

Lemma consoleOnly_commit (effects : list Effect) (s : EditorState) :
  consoleOnly effects -> commit effects s = s.
Proof.
  intros Hall. apply commit_no_update. intros url Hin.
  unfold consoleOnly in Hall. rewrite Forall_forall in Hall.
  destruct (Hall _ Hin) as (m & e & Heq). discriminate.
Qed.

(** The export holds what the preview shows once no draft is on show.  Over
    a document that decodes and has a page, with an annotation in the
    store, the export pass issues the calls of the preview pass taken with
    preview mode off, so the draft is never part of it.  When
    [page.drawText] refuses no text of the store, the file offered for
    download under the name "annotated-document.pdf" has the bytes that
    this preview shows when both load at the same time; when it refuses
    one, the export rejects and offers no file, and the preview shows
    nothing new. *)
Theorem export_is_the_preview_without_draft (t1 t2 : Z) (s : EditorState)
    (file : File.t) (p : Parsed) :
  pdfFile s = Some file ->
  parse (File.arrayBuffer file) = Some p ->
  pageCount p <> 0%nat ->
  annotations s <> [] ->
  let font := {| PDFFont.name := Helvetica |} in
  let exported := serialize p t1 (callsOf (downloadPdf t1 s)) in
  callsOf (downloadPdf t1 s) = callsOf (updatePdfPreview t2 (setPreviewMode false s))
  /\ (forallb (drawable font) (annotations s) = true ->
      settled (downloadPdf t1 s) = Ok tt
      /\ In (AnchorClick (UrlOfBlob exported "application/pdf")
                         "annotated-document.pdf")
            (effectsOf (downloadPdf t1 s))
      /\ option_map bytesOf (pdfUrl (afterPreview t1 (setPreviewMode false s)))
         = Some exported)
  /\ (forallb (drawable font) (annotations s) = false ->
      settled (downloadPdf t1 s) = Throw EncodingError
      /\ consoleOnly (effectsOf (downloadPdf t1 s))
      /\ afterPreview t2 (setPreviewMode false s) = setPreviewMode false s).
Proof.
  intros Hfile Hparse Hpages Hanns. cbv zeta.
  set (font0 := {| PDFFont.name := Helvetica |}).
  assert (Href : downloadRef_current s = true).
  { unfold downloadRef_current. destruct (annotations s); congruence. }
  pose proof (downloadPdf_run t1 s file p Hfile Hparse Hpages Href) as Hdl.
  pose proof (updatePdfPreview_run t2 (setPreviewMode false s) file p
                Hfile Hparse Hpages) as Hpv.
  pose proof (updatePdfPreview_run t1 (setPreviewMode false s) file p
                Hfile Hparse Hpages) as Hpv1.
  pose proof (afterPreview_run t1 (setPreviewMode false s) file p
                Hfile Hparse Hpages) as Hafter1.
  pose proof (afterPreview_run t2 (setPreviewMode false s) file p
                Hfile Hparse Hpages) as Hafter2.
  cbv zeta in Hdl, Hpv, Hpv1.
  change (previewing (setPreviewMode false s)) with false
    in Hpv, Hpv1, Hafter1, Hafter2.
  change (annotations (setPreviewMode false s)) with (annotations s)
    in Hpv, Hpv1, Hafter1, Hafter2.
  fold font0 in Hdl, Hpv, Hpv1, Hafter1, Hafter2.
  rewrite andb_false_r, app_nil_r in Hpv, Hpv1.
  cbn [negb orb] in Hafter1, Hafter2. rewrite andb_true_r in Hafter1, Hafter2.
  assert (Hsame :
    flat_map (fun ann => marks ann
                (Some {| doc := {| parsed := p; loadedAt := t2 |}; index := 0 |})
                font0 false) (drawnPrefix font0 (annotations s))
    = flat_map (fun ann => marks ann
                  (Some {| doc := {| parsed := p; loadedAt := t1 |}; index := 0 |})
                  font0 false) (drawnPrefix font0 (annotations s))).
  { apply flat_map_ext. intros a. now apply marks_page_index. }
  assert (Hcalls : callsOf (downloadPdf t1 s)
                   = callsOf (updatePdfPreview t1 (setPreviewMode false s))).
  { unfold callsOf. now rewrite Hdl, Hpv1. }
  split; [|split].
  - unfold callsOf. rewrite Hdl, Hpv. cbn [snd Heap.calls]. now rewrite Hsame.
  - intros Hdrawable. rewrite Hdrawable in Hdl, Hafter1.
    split; [|split].
    + unfold settled. now rewrite Hdl.
    + unfold effectsOf, callsOf. rewrite Hdl. cbn [snd Heap.effects Heap.calls].
      apply in_or_app. right. now left.
    + rewrite Hafter1, Hcalls. reflexivity.
  - intros Hrefused. rewrite Hrefused in Hdl, Hafter2.
    split; [|split].
    + unfold settled. now rewrite Hdl.
    + unfold effectsOf. rewrite Hdl. cbn [snd Heap.effects].
      rewrite app_nil_r. apply flat_map_notes_consoleOnly.
    + exact Hafter2.
Qed.

(** What the compositor does when the document has no page. *)
Lemma applyAnnotationToPage_no_page (annotation : Annotation.t)
    (font : PDFFont.t) (isPreview : bool) :
  marks annotation None font isPreview = []
  /\ (settled (applyAnnotationToPage annotation None font isPreview) = Ok tt
      \/ settled (applyAnnotationToPage annotation None font isPreview)
         = Throw TypeError)
  /\ (Annotation.type annotation = text \/ Annotation.type annotation = comment ->
      settled (applyAnnotationToPage annotation None font isPreview)
      = Throw TypeError).
Proof.
  unfold marks, callsOf, settled, run, applyAnnotationToPage,
    drawText, drawRectangle, drawLine, drawImage, onPage.
  destruct (Annotation.type annotation).
  - cbn. intuition.
  - destruct (Annotation.color annotation) as [c|]; [destruct (Js.truthy c)|];
      cbn; intuition discriminate.
  - destruct (Annotation.color annotation) as [c|]; [destruct (Js.truthy c)|];
      cbn; intuition discriminate.
  - cbn. intuition.
  - destruct (Annotation.imageData annotation) as [d|]; [destruct (Js.truthy d)|];
      try (cbn; intuition discriminate).
    unfold tryCatch, bind, decodeDataUri, page_doc.
    destruct (atob _); cbn; intuition discriminate.
Qed.

(** The loop over the annotations when the document has no page: nothing
    is drawn, only the console is written to, and a text or a comment in
    the list makes the loop throw a TypeError. *)
Lemma forOf_no_page (l : list Annotation.t) (font : PDFFont.t) (h : Heap.t) :
  exists r lines,
    forOf l (fun ann => applyAnnotationToPage ann None font false) h =
    (r, {| Heap.calls := Heap.calls h; Heap.effects := Heap.effects h ++ lines |})
    /\ consoleOnly lines
    /\ (r = Ok tt \/ r = Throw TypeError)
    /\ ((exists a, In a l /\ (Annotation.type a = text \/ Annotation.type a = comment))
        -> r = Throw TypeError).
Proof.
  revert h. induction l as [|a l IH]; intros h.
  - exists (Ok tt), []. cbn. unfold ret. rewrite app_nil_r. destruct h.
    repeat split; [constructor | now left | intros [a [[] _]]].
  - cbn [forOf]. unfold bind.
    rewrite (appends_applyAnnotationToPage a None font false h).
    destruct (applyAnnotationToPage_no_page a font false) as (Hmarks & Hset & Htext).
    pose proof (notes_consoleOnly a None font false) as Hnotes.
    unfold marks, callsOf, settled, notes, effectsOf, run in *.
    destruct (applyAnnotationToPage a None font false Heap.empty) as [r0 h0].
    cbn [fst snd] in *. unfold Heap.app. rewrite Hmarks, app_nil_r.
    destruct Hset as [-> | ->].
    + destruct (IH {| Heap.calls := Heap.calls h;
                      Heap.effects := Heap.effects h ++ Heap.effects h0 |})
        as (r & lines & -> & Hlines & Hr & Hthrow).
      exists r, (Heap.effects h0 ++ lines)%list. cbn [Heap.calls Heap.effects].
      rewrite app_assoc. repeat split.
      * apply Forall_app. now split.
      * exact Hr.
      * intros [b [[<- | Hb] Hty]]; [specialize (Htext Hty); discriminate|].
        apply Hthrow. now exists b.
    + exists (Throw TypeError), (Heap.effects h0). repeat split.
      * exact Hnotes.
      * now right.
Qed.

(** A document without pages cannot take a text or a comment: with one in
    the store, the preview pass draws nothing, catches a TypeError, writes
    it to the console and leaves the state as it was, and the export pass
    rejects with the TypeError and offers no file. *)
Theorem document_without_page_takes_no_text (now : Z) (s : EditorState)
    (file : File.t) (p : Parsed) :
  pdfFile s = Some file ->
  parse (File.arrayBuffer file) = Some p ->
  pageCount p = 0%nat ->
  (exists a, In a (annotations s)
             /\ (Annotation.type a = text \/ Annotation.type a = comment)) ->
  settled (updatePdfPreview now s) = Ok tt
  /\ callsOf (updatePdfPreview now s) = [EmbedFont Helvetica]
  /\ In (ConsoleError "Error updating PDF preview:" TypeError)
        (effectsOf (updatePdfPreview now s))
  /\ afterPreview now s = s
  /\ settled (downloadPdf now s) = Throw TypeError
  /\ consoleOnly (effectsOf (downloadPdf now s))
  /\ afterDownload now s = s.
Proof.
  intros Hfile Hparse Hpages Htext.
  assert (Hpage : nth_error (getPages {| parsed := p; loadedAt := now |}) 0 = None).
  { unfold getPages. cbn [parsed]. now rewrite Hpages. }
  assert (Href : downloadRef_current s = true).
  { unfold downloadRef_current. destruct Htext as [a [Hin _]].
    destruct (annotations s); [contradiction | reflexivity]. }
  destruct (forOf_no_page (annotations s) {| PDFFont.name := Helvetica |}
              {| Heap.calls := [EmbedFont Helvetica]; Heap.effects := [] |})
    as (r & lines & Hloop & Hlines & _ & Hthrow).
  rewrite (Hthrow Htext) in Hloop. cbn [Heap.calls Heap.effects app] in Hloop.
  assert (Hprev : run (updatePdfPreview now s) =
    (Ok tt,
     {| Heap.calls := [EmbedFont Helvetica];
        Heap.effects :=
          lines ++ [ConsoleError "Error updating PDF preview:" TypeError] |})).
  { unfold run, updatePdfPreview. rewrite Hfile.
    unfold tryCatch, bind at 1, load. rewrite Hparse. cbn [ret]. rewrite Hpage.
    unfold bind at 1, embedFont, bind at 1, call, ret.
    cbn [Heap.calls Heap.effects Heap.empty app].
    unfold bind at 1. rewrite Hloop. reflexivity. }
  assert (Hdown : run (downloadPdf now s) =
    (Throw TypeError,
     {| Heap.calls := [EmbedFont Helvetica]; Heap.effects := lines |})).
  { unfold run, downloadPdf. rewrite Hfile, Href. cbn [negb].
    unfold bind at 1, load. rewrite Hparse. cbn [ret]. rewrite Hpage.
    unfold bind at 1, embedFont, bind at 1, call, ret.
    cbn [Heap.calls Heap.effects Heap.empty app].
    unfold bind at 1. rewrite Hloop. reflexivity. }
  unfold settled, callsOf, effectsOf, afterPreview, afterDownload, effectsOf.
  rewrite Hprev, Hdown. cbn [fst snd Heap.calls Heap.effects].
  repeat split.
  - apply in_or_app. right. now left.
  - apply consoleOnly_commit. apply Forall_app. split; [exact Hlines|].
    repeat constructor. eauto.
  - exact Hlines.
  - now apply consoleOnly_commit.
Qed.

End Exporting.

(** ** Editing and the toolbar *)

Section Editing.

Context {lib : PdfLib}.

(** While a committed annotation is open in the form, the preview draws it
    twice when [page.drawText] refuses no text of the store: once in its
    place among the committed ones, and once more on top as the draft, with
    the draft flag on. *)
Theorem editing_draws_the_original_underneath (now : Z) (id : string)
    (s : EditorState) (a : Annotation.t) (file : File.t) (p : Parsed) :
  pdfFile s = Some file ->
  parse (File.arrayBuffer file) = Some p ->
  pageCount p <> 0%nat ->
  id <> EmptyString ->
  findAnnotation id (annotations s) = Some a ->
  savedShape a ->
  forallb (drawable {| PDFFont.name := Helvetica |}) (annotations s) = true ->
  let page := Some {| doc := {| parsed := p; loadedAt := now |}; index := 0 |} in
  let font := {| PDFFont.name := Helvetica |} in
  callsOf (updatePdfPreview now (next (startEditing id s)))
  = EmbedFont Helvetica
    :: flat_map (fun ann => marks ann page font false) (annotations s)
    ++ marks a page font true.
Proof.
  intros Hfile Hparse Hpages Hne Hfind Hshape Hdrawable. cbv zeta.
  destruct (startEditing_found id s a Hfind)
    as (_ & Htool & Hcontent & _ & Hpdf & Hanns & Hmode).
  assert (Hprev : previewing (next (startEditing id s)) = true).
  { unfold previewing. rewrite Hmode, Htool, Hcontent. cbn [andb].
    destruct Hshape as (_ & _ & _ & Hother).
    destruct (Annotation.type a) eqn:Hty; cbn [AnnotationType_eqb];
      try apply orb_true_r;
      (destruct Hother as [_ Hct]; [discriminate|]);
      (destruct (Annotation.content a); [congruence | reflexivity]). }
  rewrite <- Hpdf in Hfile.
  unfold callsOf. rewrite (updatePdfPreview_run now _ file p Hfile Hparse Hpages).
  cbn [snd Heap.calls]. rewrite Hprev, Hanns, Hdrawable.
  rewrite (drawnPrefix_all _ _ Hdrawable). cbn [andb].
  unfold marks at 2.
  rewrite <- (newAnnotation_draws_as_previewAnnotation 0).
  now rewrite (newAnnotation_after_startEditing 0 id s a Hne Hfind Hshape).
Qed.

End Editing.

(** Picking a tool in the toolbar lets go of the annotation under edit: a
    save made afterwards does not update it but adds a new annotation at
    the end of the store, and every annotation of the store is kept as it
    is. *)
Theorem selectTool_then_save_adds (now : Z) (tool : AnnotationType)
    (s : EditorState) :
  saveRefused (next (selectTool tool s)) = false ->
  annotations (next (saveAnnotation now (next (selectTool tool s))))
  = (annotations s ++ [newAnnotation now (next (selectTool tool s))])%list
  /\ Annotation.id (newAnnotation now (next (selectTool tool s)))
     = Date_toString now
  /\ Annotation.type (newAnnotation now (next (selectTool tool s))) = tool.
Proof.
  intros Hgo. split; [|split; reflexivity].
  now rewrite (saveAnnotation_appending now _ Hgo eq_refl).
Qed.

(** ** Runs of the further properties *)

Ltac no_comma :=
  let H := fresh in
  intros H; cbn in H;
  repeat (destruct H as [H | H]; [discriminate H|]); exact H.

Lemma decodeDataUri_reads_between_commas_witness :
  decodeDataUri (lib := Double.lib) Double.goodSignature
  = decodeText (lib := Double.lib) "iVBORw0KGgo="
  /\ decodeDataUri (lib := Double.lib) "iVBORw0KGgo="
     = decodeText (lib := Double.lib) "undefined".
Proof.
  assert (Hprefix : commaFree "data:image/png;base64") by no_comma.
  assert (Hpayload : commaFree "iVBORw0KGgo=") by no_comma.
  split.
  - exact (proj1 (decodeDataUri_reads_between_commas (lib := Double.lib)
                    "data:image/png;base64" "iVBORw0KGgo=" "" Hprefix Hpayload)).
  - exact (proj2 (proj2 (decodeDataUri_reads_between_commas (lib := Double.lib)
                    "iVBORw0KGgo=" "iVBORw0KGgo=" "" Hpayload Hpayload))).
Defined.

Lemma applyAnnotationToPage_comment_and_signature_witness :
  marks (lib := Double.lib) okComment (Some goodPage)
    {| PDFFont.name := Helvetica |} false
  = [DrawText 0 "ok"
       {| TextOptions.x := 5%float; TextOptions.y := 5%float;
          TextOptions.size := 10;
          TextOptions.font := {| PDFFont.name := Helvetica |};
          TextOptions.color := Color.rgb 0 0 0 |}]
  /\ marks (lib := Double.lib) goodSigned (Some goodPage)
       {| PDFFont.name := Helvetica |} true
     = [EmbedPng Double.pngSignature;
        DrawImage 0 {| PDFImage.png := Double.pngSignature |}
          {| ImageOptions.x := 20%float; ImageOptions.y := 30%float;
             ImageOptions.width := 150; ImageOptions.height := 60;
             ImageOptions.opacity := 0.7 |}].
Proof.
  destruct (applyAnnotationToPage_comment_and_signature (lib := Double.lib)
              okComment goodPage {| PDFFont.name := Helvetica |} false Heap.empty)
    as (Hcomment & _).
  destruct (applyAnnotationToPage_comment_and_signature (lib := Double.lib)
              goodSigned goodPage {| PDFFont.name := Helvetica |} true Heap.empty)
    as (_ & _ & Hsignature).
  unfold marks, callsOf, run. split.
  - rewrite (Hcomment eq_refl eq_refl). reflexivity.
  - rewrite (Hsignature Double.goodSignature
               (String.string_of_list_byte Double.pngSignature)
               eq_refl eq_refl);
      [reflexivity | discriminate | reflexivity | reflexivity].
Defined.

Lemma signature_without_comma_is_skipped_witness :
  applyAnnotationToPage (lib := Double.lib) commalessSigned (Some goodPage)
    {| PDFFont.name := Helvetica |} false Heap.empty
  = (Ok tt,
     {| Heap.calls := [];
        Heap.effects :=
          [ConsoleError "Error embedding signature:" InvalidCharacterError] |}).
Proof.
  apply (signature_without_comma_is_skipped (lib := Double.lib)
           commalessSigned (Some goodPage) {| PDFFont.name := Helvetica |} false
           Heap.empty "iVBORw0KGgo=");
    [reflexivity | reflexivity | reflexivity | discriminate | no_comma].
Defined.

Lemma saveAnnotation_updates_in_place_witness :
  map Annotation.id (annotations (next (saveAnnotation 1700000000009 editingHighlight)))
  = ["1700000000000"].
Proof.
  destruct (saveAnnotation_updates_in_place 1700000000009 editingHighlight
              "1700000000000" eq_refl eq_refl) as (Hids & _).
  - discriminate.
  - rewrite Hids. reflexivity.
Defined.

Lemma deleteAnnotation_removes_exactly_witness :
  annotations (next (deleteAnnotation "1600000000000" editingHighlight))
  = annotations editingHighlight
  /\ editingId (next (deleteAnnotation "1700000000000" editingHighlight)) = None.
Proof.
  destruct (deleteAnnotation_removes_exactly "1600000000000" editingHighlight)
    as (_ & _ & Habsent & _).
  destruct (deleteAnnotation_removes_exactly "1700000000000" editingHighlight)
    as (_ & _ & _ & Hedited & _).
  split.
  - apply Habsent. cbn. intros [H | []]. discriminate.
  - apply Hedited. reflexivity.
Defined.

(** Pressed at (100, 100) and moved to (130, 90), the highlight at (50, 50)
    goes to (80, 40); pressed at (0.1, 0.5) and moved to (0.3, 0.5), it
    goes where the arithmetic of doubles puts it. *)
#[local] Set Warnings "-inexact-float".

Lemma drag_follows_the_pointer_at_the_press_offset_witness :
  findAnnotation "1700000000000"
    (annotations
       (next (handleDrag 130 90
                (next (startDragging 100 100 "1700000000000" oneHighlight)))))
  = Some (moveTo 80 40 yellowHighlight)
  /\ findAnnotation "1700000000000"
       (annotations
          (next (handleDrag 0.3 0.5
                   (next (startDragging 0.1 0.5 "1700000000000" oneHighlight)))))
     = Some (moveTo 50.199999999999996 50 yellowHighlight).
Proof.
  destruct (drag_follows_the_pointer_at_the_press_offset 100 100 130 90
              "1700000000000" oneHighlight yellowHighlight) as (_ & Hfound & _).
  - discriminate.
  - reflexivity.
  - destruct (drag_follows_the_pointer_at_the_press_offset 0.1 0.5 0.3 0.5
                "1700000000000" oneHighlight yellowHighlight)
      as (_ & Hsmall & _).
    + discriminate.
    + reflexivity.
    + rewrite Hfound, Hsmall. split; reflexivity.
Defined.

Lemma savedShape_yellowHighlight : savedShape yellowHighlight.
Proof.
  repeat split; try discriminate.
  - intros _. exists "#FFFF00". split; [reflexivity | discriminate].
Qed.

Lemma edit_then_save_untouched_is_identity_witness :
  annotations (next (saveAnnotation 1700000000009
                       (next (startEditing "1700000000000" oneHighlight))))
  = annotations oneHighlight.
Proof.
  apply (edit_then_save_untouched_is_identity 1700000000009 "1700000000000"
           oneHighlight yellowHighlight).
  - discriminate.
  - discriminate.
  - cbn. constructor; [intros [] | constructor].
  - reflexivity.
  - exact savedShape_yellowHighlight.
Defined.

Lemma store_keeps_content_and_identifiers_witness :
  Forall hasContentAndId
    (annotations (next (saveAnnotation 1700000000009 highlightAndDraft))).
Proof.
  apply (store_keeps_content_and_identifiers 1700000000009 0 0 "1700000000000"
           Double.goodFile highlightAndDraft).
  cbn. constructor; [split; discriminate | constructor].
Defined.

Lemma save_button_keeps_signatures_signed_witness :
  Forall signed (annotations (next (clickSave 1700000000009 emptySignatureDraft))).
Proof.
  apply (save_button_keeps_signatures_signed 1700000000009 0 0 "1700000000000"
           Double.goodFile emptySignatureDraft).
  cbn. constructor; [intros H; discriminate H | constructor].
Defined.

Lemma editing_targets_a_committed_annotation_witness :
  editingExists (next (deleteAnnotation "1600000000000" editingHighlight)).
Proof.
  apply (editing_targets_a_committed_annotation 1700000000009 0 0 "1600000000000"
           text Double.goodFile editingHighlight).
  intros e He. injection He as <-. cbn. now left.
Defined.

Lemma saveAnnotation_stores_the_form_witness :
  In (newAnnotation 1700000000009 editingHighlight)
     (annotations (next (saveAnnotation 1700000000009 editingHighlight))).
Proof.
  apply saveAnnotation_stores_the_form; [|reflexivity].
  intros e He. injection He as <-. cbn. now left.
Defined.

Lemma save_redraws_the_draft_as_committed_witness :
  callsOf (updatePdfPreview (lib := Double.lib) 1700000060000
             (next (saveAnnotation 1700000000009 highlightAndDraft)))
  = [EmbedFont Helvetica;
     DrawRectangle 0
       {| RectangleOptions.x := 50%float; RectangleOptions.y := 50%float;
          RectangleOptions.width := 100%float; RectangleOptions.height := 20%float;
          RectangleOptions.color :=
            Color.rgb (inject_Z 255 / 255) (inject_Z 255 / 255) (inject_Z 0 / 255);
          RectangleOptions.opacity := 0.5 |};
     DrawText 0 "Hi"
       {| TextOptions.x := 10%float; TextOptions.y := 10%float;
          TextOptions.size := 12;
          TextOptions.font := {| PDFFont.name := Helvetica |};
          TextOptions.color := Color.rgb 0 0 0 |}].
Proof.
  destruct (save_redraws_the_draft_as_committed (lib := Double.lib)
              1700000000000 1700000060000 1700000000009 highlightAndDraft
              Double.goodFile (File.arrayBuffer Double.goodFile) eq_refl eq_refl)
    as (_ & Hafter);
    [discriminate | reflexivity | reflexivity | reflexivity |].
  rewrite Hafter. reflexivity.
Defined.

Lemma handlePdfUpload_starts_clean_witness :
  run (updatePdfPreview (lib := Double.lib) 1700000000000
         (next (handlePdfUpload Double.goodFile highlightAndDraft)))
  = (Ok tt,
     {| Heap.calls := [EmbedFont Helvetica];
        Heap.effects :=
          [SetPdfUrl (UrlOfBlob (list_byte_of_string "%PDF-1.7F1700000000")
                                "application/pdf")] |}).
Proof.
  destruct (handlePdfUpload_starts_clean (lib := Double.lib) 1700000000000
              Double.goodFile highlightAndDraft
              (File.arrayBuffer Double.goodFile) eq_refl)
    as (_ & _ & _ & Hrun & _).
  rewrite Hrun. reflexivity.
Defined.

(** The export of the highlight with the draft "Hi" on show holds the
    highlight alone; with a note in the store that the font cannot encode,
    the export rejects. *)
Lemma export_is_the_preview_without_draft_witness :
  callsOf (downloadPdf (lib := Double.lib) 1700000000000 highlightAndDraft)
  = callsOf (updatePdfPreview (lib := Double.lib) 1700000060000 oneHighlight)
  /\ In (AnchorClick
           (UrlOfBlob (list_byte_of_string "%PDF-1.7FR1700000000")
                      "application/pdf")
           "annotated-document.pdf")
        (effectsOf (downloadPdf (lib := Double.lib) 1700000000000
                      highlightAndDraft))
  /\ settled (downloadPdf (lib := Double.lib) 1700000000000
                unencodableThenHighlight)
     = Throw EncodingError.
Proof.
  destruct (export_is_the_preview_without_draft (lib := Double.lib)
              1700000000000 1700000060000 highlightAndDraft Double.goodFile
              (File.arrayBuffer Double.goodFile) eq_refl eq_refl)
    as (Hcalls & Hdrawn & _); [discriminate | discriminate |].
  destruct (export_is_the_preview_without_draft (lib := Double.lib)
              1700000000000 1700000060000 unencodableThenHighlight
              Double.goodFile (File.arrayBuffer Double.goodFile)
              eq_refl eq_refl)
    as (_ & _ & Hrefused); [discriminate | discriminate |].
  destruct (Hdrawn eq_refl) as (_ & Hclick & _).
  destruct (Hrefused eq_refl) as (Hthrow & _).
  split; [|split].
  - rewrite Hcalls. reflexivity.
  - exact Hclick.
  - exact Hthrow.
Defined.

Lemma document_without_page_takes_no_text_witness :
  settled (updatePdfPreview (lib := pagelessLib) 1700000000000 oneNote) = Ok tt
  /\ afterPreview (lib := pagelessLib) 1700000000000 oneNote = oneNote
  /\ settled (downloadPdf (lib := pagelessLib) 1700000000000 oneNote)
     = Throw TypeError.
Proof.
  destruct (document_without_page_takes_no_text (lib := pagelessLib)
              1700000000000 oneNote Double.goodFile
              (File.arrayBuffer Double.goodFile) eq_refl eq_refl eq_refl)
    as (Hprev & _ & _ & Hstate & Hdown & _).
  - exists hiNote. split; [now left | now left].
  - repeat split; assumption.
Defined.

Lemma editing_draws_the_original_underneath_witness :
  callsOf (updatePdfPreview (lib := Double.lib) 1700000000000 editingHighlight)
  = [EmbedFont Helvetica;
     DrawRectangle 0
       {| RectangleOptions.x := 50%float; RectangleOptions.y := 50%float;
          RectangleOptions.width := 100%float; RectangleOptions.height := 20%float;
          RectangleOptions.color :=
            Color.rgb (inject_Z 255 / 255) (inject_Z 255 / 255) (inject_Z 0 / 255);
          RectangleOptions.opacity := 0.5 |};
     DrawRectangle 0
       {| RectangleOptions.x := 50%float; RectangleOptions.y := 50%float;
          RectangleOptions.width := 100%float; RectangleOptions.height := 20%float;
          RectangleOptions.color :=
            Color.rgb (inject_Z 255 / 255) (inject_Z 255 / 255) (inject_Z 0 / 255);
          RectangleOptions.opacity := 0.3 |}].
Proof.
  unfold editingHighlight.
  rewrite (editing_draws_the_original_underneath (lib := Double.lib)
             1700000000000 "1700000000000" oneHighlight yellowHighlight
             Double.goodFile (File.arrayBuffer Double.goodFile) eq_refl eq_refl);
    [reflexivity | discriminate | discriminate | reflexivity
     | exact savedShape_yellowHighlight | reflexivity].
Defined.

(** The highlight is open in the form, the text tool is picked and "Hi" is
    typed. *)
Lemma selectTool_then_save_adds_witness :
  map Annotation.id
    (annotations
       (next (saveAnnotation 1700000000009
                (next (selectTool text (setContent "Hi" editingHighlight))))))
  = ["1700000000000"; "1700000000009"].
Proof.
  destruct (selectTool_then_save_adds 1700000000009 text
              (setContent "Hi" editingHighlight) eq_refl) as (Hadded & _).
  rewrite Hadded. reflexivity.
Defined.

Lemma saved_annotation_draws_like_its_draft_witness :
  marks (lib := Double.lib) (newAnnotation 1700000000009 highlightAndDraft)
    (Some goodPage) {| PDFFont.name := Helvetica |} false
  = marks (lib := Double.lib) (previewAnnotation highlightAndDraft)
      (Some goodPage) {| PDFFont.name := Helvetica |} false.
Proof.
  exact (proj1 (saved_annotation_draws_like_its_draft (lib := Double.lib)
                  1700000000009 highlightAndDraft (Some goodPage)
                  {| PDFFont.name := Helvetica |} false)).
Defined.
